(** * ppt-to-pdf: page-grid composition and the /convert pipeline

    A shallow embedding of the server of this repository: the grid
    resolver [getGridLayout], the composer [mergeSlidesPerPage], the
    compression stage [compressPdf] and the [/convert] route handlers of
    both source files, followed by the properties of the specification.

    JavaScript numbers are IEEE binary64 values: the geometry of the
    composer is written over an interface of number operations
    ([JsNumber]) and read over Rocq's primitive floats, which is what
    the code computes. *)

From Stdlib Require Import ZArith Lia Ascii.
From Stdlib Require Import Floats.PrimFloat Numbers.Cyclic.Int63.Uint63.
From stdpp Require Import gmap strings list.

Local Open Scope Z_scope.

(** ** JavaScript numbers *)

Class JsNumber (T : Type) := {
  num : Z -> T;                 (* an integer literal or loop counter *)
  nadd : T -> T -> T;
  nsub : T -> T -> T;
  nmul : T -> T -> T;
  ndiv : T -> T -> T;
  Math_min : T -> T -> T;
}.

Declare Scope js_scope.
Delimit Scope js_scope with js.
Infix "⊕" := nadd (at level 50, left associativity) : js_scope.
Infix "⊖" := nsub (at level 50, left associativity) : js_scope.
Infix "⊗" := nmul (at level 40, left associativity) : js_scope.
Infix "⊘" := ndiv (at level 40, left associativity) : js_scope.

(** The doubles of the running program.  [Math.min] returns NaN when an
    argument is NaN and orders -0 below +0. *)
Definition float_of_Z (z : Z) : float :=
  if z <? 0 then PrimFloat.opp (PrimFloat.of_uint63 (Uint63.of_Z (- z)))
  else PrimFloat.of_uint63 (Uint63.of_Z z).

Definition float_min (a b : float) : float :=
  if PrimFloat.is_nan a || PrimFloat.is_nan b then PrimFloat.nan
  else if PrimFloat.ltb a b then a
  else if PrimFloat.ltb b a then b
  else if PrimFloat.is_zero a && PrimFloat.get_sign a then a
  else b.

#[export] Instance float_number : JsNumber float := {
  num := float_of_Z;
  nadd := PrimFloat.add;
  nsub := PrimFloat.sub;
  nmul := PrimFloat.mul;
  ndiv := PrimFloat.div;
  Math_min := float_min;
}.

(** ** Grid layout resolver *)

Record Grid := { cols : Z; rows : Z }.

#[export] Instance Grid_eq_dec : EqDecision Grid.
Proof. solve_decision. Defined.

(** The object literal of [getGridLayout]; a number used as a property
    key selects the entry written with that number. *)
Definition layouts : gmap Z Grid :=
  {[ 2 := {| cols := 1; rows := 2 |};
     3 := {| cols := 1; rows := 3 |};
     4 := {| cols := 2; rows := 2 |};
     6 := {| cols := 2; rows := 3 |};
     9 := {| cols := 3; rows := 3 |} ]}.

(** [layouts[slidesPerPage] || { cols: 1, rows: 1 }]: an object is
    truthy, a missing property is [undefined]. *)
Definition getGridLayout (slidesPerPage : Z) : Grid :=
  default {| cols := 1; rows := 1 |} (layouts !! slidesPerPage).

Definition supported : list Z := [2; 3; 4; 6; 9].
Definition validSlidesPerPage : list Z := [1; 2; 3; 4; 6; 9].

(** ** Page composer *)

(** How an evaluation of the program ends: with a value, with a thrown
    [Error] carrying its message, or not at all (a loop that does not
    end, a promise that is never settled). *)
Inductive completion (A : Type) : Type :=
  | Normal (a : A)
  | Throw (message : string)
  | Stuck.
Arguments Normal {A} a.
Arguments Throw {A} message.
Arguments Stuck {A}.

Section Composer.
Context {T : Type} `{JsNumber T}.
Local Open Scope js_scope.

(** [page.getSize()] *)
Record Size := { width : T; height : T }.

(** One call [newPage.drawPage(copiedPage, { x, y, width, height })];
    [source] is the index in the source document of the copied page. *)
Record Drawn := {
  source : Z;
  at_x : T;
  at_y : T;
  drawn_width : T;
  drawn_height : T;
}.

(** An output page is the sequence of the [drawPage] calls that have
    drawn on it. *)
Definition OutPage := list Drawn.

Definition pageWidth : Z := 612.
Definition pageHeight : Z := 792.
Definition padding : Z := 10.

Definition slideWidth (grid : Grid) : T :=
  (num pageWidth ⊖ num padding ⊗ num (cols grid + 1)) ⊘ num (cols grid).
Definition slideHeight (grid : Grid) : T :=
  (num pageHeight ⊖ num padding ⊗ num (rows grid + 1)) ⊘ num (rows grid).

(** [j % cols] and [Math.floor(j / cols)] on counters: exact on
    doubles for the small non-negative integers that occur. *)
Definition cell_col (grid : Grid) (j : Z) : Z := Z.rem j (cols grid).
Definition cell_row (grid : Grid) (j : Z) : Z := j / cols grid.

Definition cell_x (grid : Grid) (j : Z) : T :=
  num padding ⊕ num (cell_col grid j) ⊗ (slideWidth grid ⊕ num padding).
Definition cell_y (grid : Grid) (j : Z) : T :=
  num pageHeight ⊖
    (num padding ⊕ num (cell_row grid j + 1) ⊗ (slideHeight grid ⊕ num padding)).

(** The scale of a source page of size [sz] in a cell. *)
Definition fit_scale (grid : Grid) (sz : Size) : T :=
  let scaleX := slideWidth grid ⊘ width sz in
  let scaleY := slideHeight grid ⊘ height sz in
  Math_min scaleX scaleY.

(** The body of the drawing loop for slot [j] of a batch, up to the
    call of [drawPage]: the arguments the call is given. *)
Definition drawSlot (grid : Grid) (j : Z) (copiedPage : Z * Size) : Drawn :=
  let x := cell_x grid j in
  let y := cell_y grid j in
  let sourceWidth := width copiedPage.2 in
  let sourceHeight := height copiedPage.2 in
  let scale := fit_scale grid copiedPage.2 in
  let scaledWidth := sourceWidth ⊗ scale in
  let scaledHeight := sourceHeight ⊗ scale in
  let offsetX := (slideWidth grid ⊖ scaledWidth) ⊘ num 2 in
  let offsetY := (slideHeight grid ⊖ scaledHeight) ⊘ num 2 in
  {| source := copiedPage.1;
     at_x := x ⊕ offsetX;
     at_y := y ⊕ offsetY;
     drawn_width := scaledWidth;
     drawn_height := scaledHeight |}.

(** The classes of pdf-lib that matter here: [copyPages] returns
    [PDFPage] objects, and what [drawPage] draws is a
    [PDFEmbeddedPage] (the result of [embedPage] or [embedPdf]). *)
Inductive PdfClass := PDFPage | PDFEmbeddedPage.

(** The message of the [TypeError] of pdf-lib's check of an argument. *)
Variable type_error : string.

(** [newPage.drawPage(page, options)] of pdf-lib begins with the
    assertion that [page] is a [PDFEmbeddedPage] and throws a
    [TypeError] when it is not; nothing is drawn then. *)
Definition drawPage (class : PdfClass) (call : Drawn) : completion Drawn :=
  match class with
  | PDFEmbeddedPage => Normal call
  | PDFPage => Throw type_error
  end.

(** [for (let j = 0; j < copiedPages.length; j++)]: the calls of
    [drawPage] that were made, in order, and how the loop ended.  A
    [copiedPage] is one of the [PDFPage] objects of [copyPages]. *)
Fixpoint drawBatch (grid : Grid) (j : Z) (copiedPages : list (Z * Size))
  : list Drawn * completion OutPage :=
  match copiedPages with
  | [] => ([], Normal [])
  | copiedPage :: rest =>
      let call := drawSlot grid j copiedPage in
      match drawPage PDFPage call with
      | Normal drawn =>
          match drawBatch grid (j + 1) rest with
          | (calls, Normal newPage) => (call :: calls, Normal (drawn :: newPage))
          | (calls, Throw message) => (call :: calls, Throw message)
          | (calls, Stuck) => (call :: calls, Stuck)
          end
      | Throw message => ([call], Throw message)
      | Stuck => ([call], Stuck)
      end
  end.

(** [for (let j = 0; j < slidesPerPage && (i + j) < totalPages; j++)
       pageIndices.push(i + j)].
    The counter is bounded by [slidesPerPage], so [slidesPerPage - j]
    rounds always suffice. *)
Fixpoint collectFrom (rounds : nat) (slidesPerPage totalPages i j : Z) : list Z :=
  match rounds with
  | O => []
  | S rounds' =>
      if (j <? slidesPerPage) && (i + j <? totalPages)
      then (i + j) :: collectFrom rounds' slidesPerPage totalPages i (j + 1)
      else []
  end.

Definition collectIndices (slidesPerPage totalPages i : Z) : list Z :=
  collectFrom (Z.to_nat slidesPerPage) slidesPerPage totalPages i 0.

(** [newPdfDoc.copyPages(pdfDoc, pageIndices)]: an index outside the
    document makes the library throw. *)
Definition copyPage (pages : list Size) (index : Z) : option (Z * Size) :=
  if index <? 0 then None
  else (fun sz => (index, sz)) <$> pages !! Z.to_nat index.

Definition copyPages (pages : list Size) (pageIndices : list Z)
  : option (list (Z * Size)) :=
  mapM (copyPage pages) pageIndices.

(** [for (let i = 0; i < totalPages; i += slidesPerPage)], run for at
    most [fuel] rounds; [None] when the rounds are used up.  The result
    is the calls of [drawPage] made, in order, and how the loop ended:
    with the output pages, or with what a call has thrown. *)
Fixpoint mergeLoop (fuel : nat) (pages : list Size) (slidesPerPage i : Z)
  : option (list Drawn * completion (list OutPage)) :=
  match fuel with
  | O => None
  | S fuel' =>
      let totalPages := Z.of_nat (length pages) in
      if i <? totalPages then
        let grid := getGridLayout slidesPerPage in
        let pageIndices := collectIndices slidesPerPage totalPages i in
        match copyPages pages pageIndices with
        | None => Some ([], Throw "copyPages: index out of range")
        | Some copiedPages =>
            match drawBatch grid 0 copiedPages with
            | (calls, Normal newPage) =>
                match mergeLoop fuel' pages slidesPerPage (i + slidesPerPage) with
                | Some (later, Normal out) => Some (calls ++ later, Normal (newPage :: out))
                | Some (later, Throw message) => Some (calls ++ later, Throw message)
                | Some (later, Stuck) => Some (calls ++ later, Stuck)
                | None => None
                end
            | (calls, Throw message) => Some (calls, Throw message)
            | (calls, Stuck) => Some (calls, Stuck)
            end
        end
      else Some ([], Normal [])
  end.

(** The loops of [mergeSlidesPerPage] on a loaded document (the
    function itself, with the reading and the writing of the
    document, is below).  With a positive step the loop is over within
    [length pages] rounds; with a step that is not positive and a page
    to process it never ends (lemma [mergeLoop_diverges]). *)
Definition mergePages (pages : list Size) (slidesPerPage : Z)
  : completion (list OutPage) :=
  match mergeLoop (S (length pages)) pages slidesPerPage 0 with
  | Some r => r.2
  | None => Stuck
  end.

(** The calls of [drawPage] that the loops make on a loaded document,
    in order, each with its arguments. *)
Definition drawPageCalls (pages : list Size) (slidesPerPage : Z) : list Drawn :=
  match mergeLoop (S (length pages)) pages slidesPerPage 0 with
  | Some r => r.1
  | None => []
  end.

End Composer.

Arguments Size T : clear implicits.
Arguments Drawn T : clear implicits.
Arguments OutPage T : clear implicits.

(** ** Strings of the request *)

Definition quote : string := String (ascii_of_nat 34) EmptyString.
Definition quoted (s : string) : string := quote +:+ s +:+ quote.

(** A falsy operand of [||]: [undefined] or the empty string. *)
Definition truthy (v : option string) : bool :=
  match v with
  | Some (String _ _) => true
  | _ => false
  end.
Definition js_or (a b : option string) : option string :=
  if truthy a then a else b.
Definition or_text (a b : string) : string :=
  match a with
  | EmptyString => b
  | _ => a
  end.

(** [parseInt(string)] without a radix: leading white space is skipped,
    a sign is read, a [0x] prefix selects base 16, and the longest run
    of digits that follows is the value; nothing after it is looked at.
    Characters are code units below 256. *)
Inductive jsint := NaN | Int (z : Z).

#[export] Instance jsint_eq_dec : EqDecision jsint.
Proof. solve_decision. Defined.

Definition is_white_space (c : ascii) : bool :=
  bool_decide (nat_of_ascii c ∈ [9; 10; 11; 12; 13; 32; 160]%nat).

Fixpoint trim_start (s : string) : string :=
  match s with
  | String c s' => if is_white_space c then trim_start s' else s
  | EmptyString => EmptyString
  end.

Definition digit_value (c : ascii) : option Z :=
  let n := Z.of_nat (nat_of_ascii c) in
  if (48 <=? n) && (n <=? 57) then Some (n - 48)
  else if (97 <=? n) && (n <=? 122) then Some (n - 87)
  else if (65 <=? n) && (n <=? 90) then Some (n - 55)
  else None.

Fixpoint parse_digits (radix : Z) (s : string) (acc : option Z) : option Z :=
  match s with
  | EmptyString => acc
  | String c s' =>
      match digit_value c with
      | Some d =>
          if d <? radix
          then parse_digits radix s' (Some (radix * default 0 acc + d))
          else acc
      | None => acc
      end
  end.

Definition is_x (c : ascii) : bool :=
  bool_decide (nat_of_ascii c ∈ [88; 120]%nat).

Definition parseInt (input : option string) : jsint :=
  match input with
  | None => NaN
  | Some text =>
      let s := trim_start text in
      let '(sign, s) :=
        match s with
        | String "-" r => (-1, r)
        | String "+" r => (1, r)
        | _ => (1, s)
        end in
      let '(radix, s) :=
        match s with
        | String "0" (String c r) => if is_x c then (16, r) else (10, s)
        | _ => (10, s)
        end in
      match parse_digits radix s None with
      | Some n => Int (sign * n)
      | None => NaN
      end
  end.

(** [validSlidesPerPage.includes(slidesPerPage)] *)
Definition includes (l : list Z) (v : jsint) : bool :=
  match v with
  | Int z => bool_decide (z ∈ l)
  | NaN => false
  end.

Definition lower (c : ascii) : ascii :=
  let n := nat_of_ascii c in
  if ((65 <=? n) && (n <=? 90))%nat then ascii_of_nat (n + 32) else c.

Fixpoint equal_ignoring_case (s t : string) : bool :=
  match s, t with
  | EmptyString, EmptyString => true
  | String a s', String b t' => Ascii.eqb (lower a) (lower b) && equal_ignoring_case s' t'
  | _, _ => false
  end.

(** [name.replace(/\.pptx$/i, replacement)] *)
Fixpoint replace_pptx (name replacement : string) : string :=
  if equal_ignoring_case name ".pptx" then replacement
  else match name with
       | EmptyString => EmptyString
       | String c rest => String c (replace_pptx rest replacement)
       end.

(** [f.toLowerCase().endsWith('.pdf')] *)
Fixpoint ends_with_pdf (name : string) : bool :=
  equal_ignoring_case name ".pdf" ||
  match name with
  | EmptyString => false
  | String _ rest => ends_with_pdf rest
  end.

(** [names.join(', ')] *)
Fixpoint join_comma (names : list string) : string :=
  match names with
  | [] => EmptyString
  | [n] => n
  | n :: rest => n +:+ ", " +:+ join_comma rest
  end.

(** ** Files, processes and responses *)

Definition bytes := list Byte.byte.

(** What a path names: a file with its content and modification time,
    or a directory. *)
Inductive node :=
  | File (content : bytes) (mtime : Z)
  | Dir (mtime : Z).

Definition node_mtime (n : node) : Z :=
  match n with
  | File _ m => m
  | Dir m => m
  end.

(** The arguments of the callback of [child_process.exec]:
    [exec_error] is [error.message] when the process failed. *)
Record exec_result := {
  exec_error : option string;
  exec_stdout : string;
  exec_stderr : string;
}.

(** What the handlers do to the outside, in the order they do it.
    Console output is left out. *)
Inductive event :=
  | Exec (command : string)
  | Unlink (path : string)
  | Mkdir (path : string)
  | ReadFile (path : string)
  | WriteFile (path : string)
  | CopyFile (src dst : string)
  | Respond (status : Z) (error : string)
  | Download (path filename : string)
  | SetTimeout (ms : Z).

#[export] Instance event_eq_dec : EqDecision event.
Proof. solve_decision. Defined.

Record world := {
  files : gmap string node;
  clock : Z;
  trace : list event;
}.

(** The collaborators the server calls: the external processes, Node's
    [path] and directory listing, pdf-lib's reader and writer, and the
    transfer of the response.  [exec_process] gives, for a command line
    and the files it finds, how the process ended and the files it
    left; [PDFDocument_load] gives the sizes of the pages of a document
    or the message of the error it throws; [drawPage_TypeError] is the
    message of the error that [drawPage] throws when it is handed
    something else than a [PDFEmbeddedPage]; [transmit] gives the error
    argument of the callback of [res.download]. *)
Record Env := {
  libreOfficeCmd : string;
  exec_process : string -> gmap string node -> exec_result * gmap string node;
  path_resolve : string -> string;
  path_join : string -> string -> string;
  path_basename : string -> string -> string;
  path_extname : string -> string;
  readdirSync : gmap string node -> string -> list string;
  PDFDocument_load : bytes -> string + list (Size float);
  PDFDocument_save : list (OutPage float) -> bytes;
  drawPage_TypeError : string;
  transmit : gmap string node -> string -> option string;
}.

(** Computations of a handler: they read and change the world and end
    as a [completion]. *)
Definition M (A : Type) : Type := world -> completion A * world.

Definition ret {A} (a : A) : M A := fun w => (Normal a, w).
Definition bind {A B} (c : M A) (k : A -> M B) : M B := fun w =>
  match c w with
  | (Normal a, w') => k a w'
  | (Throw e, w') => (Throw e, w')
  | (Stuck, w') => (Stuck, w')
  end.

Declare Scope M_scope.
Delimit Scope M_scope with M.
Bind Scope M_scope with M.
Notation "x ← y ; z" := (bind y (fun x => z))
  (at level 20, y at level 100, z at level 200, only parsing) : M_scope.
Notation "x ;; z" := (bind x (fun _ => z))
  (at level 100, z at level 200, only parsing, right associativity) : M_scope.
Local Open Scope M_scope.

Definition throw {A} (message : string) : M A := fun w => (Throw message, w).

(** [try { c } catch (error) { handler(error.message) }] *)
Definition try_catch {A} (c : M A) (handler : string -> M A) : M A := fun w =>
  match c w with
  | (Throw e, w') => handler e w'
  | r => r
  end.

(** Code run from a callback of the event loop: nothing catches what it
    throws, and a promise waiting for it is never settled. *)
Definition in_callback {A} (c : M A) : M A := fun w =>
  match c w with
  | (Throw _, w') => (Stuck, w')
  | r => r
  end.

Definition emit (e : event) : M unit := fun w =>
  (Normal tt, {| files := files w; clock := clock w; trace := trace w ++ [e] |}).

Definition set_files (f : gmap string node) : M unit := fun w =>
  (Normal tt, {| files := f; clock := clock w; trace := trace w |}).

Definition tick (ms : Z) : M Z := fun w =>
  (Normal (clock w), {| files := files w; clock := clock w + ms; trace := trace w |}).

Definition get_files : M (gmap string node) := fun w => (Normal (files w), w).

(** The events of a run that started in [w]. *)
Definition events_since (w w' : world) : list event :=
  drop (length (trace w)) (trace w').

Definition stuck {A} : M A := fun w => (Stuck, w).

Record UploadedFile := { file_path : string; originalname : string }.

(** The request as the handler reads it: [req.file],
    [req.body.slidesPerPage] and [req.query.slidesPerPage]. *)
Record Request := {
  req_file : option UploadedFile;
  body_slidesPerPage : option string;
  query_slidesPerPage : option string;
}.

(** The constants a run of the handler computes from the upload. *)
Record Job := {
  inputPath : string;
  outputDir : string;
  baseFileName : string;
  tempPdfPath : string;
  optimizedPdfPath : string;
  finalPdfPath : string;
}.

(** Stable sort of paths by modification time, most recent first:
    [pdfPaths.sort((a, b) => statB.mtime - statA.mtime)]. *)
Fixpoint insert_recent (x : string * Z) (l : list (string * Z)) : list (string * Z) :=
  match l with
  | [] => [x]
  | y :: l' => if y.2 <=? x.2 then x :: y :: l' else y :: insert_recent x l'
  end.
Definition sort_recent (l : list (string * Z)) : list (string * Z) :=
  foldr insert_recent [] l.

Section Server.
Variable env : Env.

(** The file system resolves a relative path before it looks. *)
Definition key (p : string) : string := path_resolve env p.

Definition existsSync (p : string) : M bool :=
  f ← get_files; ret (bool_decide (is_Some (f !! key p))).

(** [fs.unlink(p, callback)]: the removal is asynchronous in Node and
    its error is only logged; here it is done when it is issued. *)
Definition unlink (p : string) : M unit :=
  emit (Unlink p) ;;
  f ← get_files;
  match f !! key p with
  | Some (File _ _) => set_files (delete (key p) f)
  | _ => ret tt
  end.

Definition cleanupFile (filePath : string) : M unit :=
  b ← existsSync filePath;
  if b then unlink filePath else ret tt.

Definition mkdirSync (p : string) : M unit :=
  f ← get_files;
  match f !! key p with
  | Some (File _ _) => throw "EEXIST: file already exists"
  | Some (Dir _) => ret tt
  | None =>
      emit (Mkdir p) ;;
      now ← tick 1;
      set_files (<[key p := Dir now]> f)
  end.

Definition readFileSync (p : string) : M bytes :=
  f ← get_files;
  match f !! key p with
  | Some (File content _) => emit (ReadFile p) ;; ret content
  | Some (Dir _) => throw "EISDIR: illegal operation on a directory"
  | None => throw "ENOENT: no such file or directory"
  end.

Definition writeFileSync (p : string) (content : bytes) : M unit :=
  f ← get_files;
  match f !! key p with
  | Some (Dir _) => throw "EISDIR: illegal operation on a directory"
  | _ =>
      emit (WriteFile p) ;;
      now ← tick 1;
      set_files (<[key p := File content now]> f)
  end.

(** [fs.copyFileSync(src, dst)]: the destination is overwritten; a
    copy of a file onto itself changes nothing. *)
Definition copyFileSync (src dst : string) : M unit :=
  f ← get_files;
  match f !! key src with
  | Some (File content _) =>
      match f !! key dst with
      | Some (Dir _) => throw "EISDIR: illegal operation on a directory"
      | _ =>
          emit (CopyFile src dst) ;;
          if decide (key src = key dst) then ret tt
          else now ← tick 1; set_files (<[key dst := File content now]> f)
      end
  | Some (Dir _) => throw "EISDIR: illegal operation on a directory"
  | None => throw "ENOENT: no such file or directory"
  end.

Definition statSync_mtime (p : string) : M Z :=
  f ← get_files;
  match f !! key p with
  | Some n => ret (node_mtime n)
  | None => throw "ENOENT: no such file or directory"
  end.

Definition readdir (dir : string) : M (list string) :=
  f ← get_files;
  match f !! key dir with
  | Some (Dir _) => ret (readdirSync env f (key dir))
  | Some (File _ _) => throw "ENOTDIR: not a directory"
  | None => throw "ENOENT: no such file or directory"
  end.

(** [exec(command, callback)] and the arguments of its callback. *)
Definition exec (command : string) : M exec_result := fun w =>
  let '(r, f) := exec_process env command (files w) in
  (Normal r, {| files := f; clock := clock w; trace := trace w ++ [Exec command] |}).

(** [res.status(status).json({ error })] *)
Definition respond (status : Z) (error : string) : M unit :=
  emit (Respond status error).

(** [setTimeout(() => c, ms)] *)
Definition setTimeout (ms : Z) (c : M unit) : M unit :=
  emit (SetTimeout ms) ;; tick ms ;; in_callback c.

(** [res.download(p, filename, callback)] *)
Definition download (p filename : string) (callback : option string -> M unit) : M unit :=
  emit (Download p filename) ;;
  f ← get_files;
  in_callback (callback (transmit env f p)).

(** *** [mergeSlidesPerPage] *)

Definition mergeSlidesPerPage (pdfPath : string) (slidesPerPage : Z) : M bytes :=
  existingPdfBytes ← readFileSync pdfPath;
  match PDFDocument_load env existingPdfBytes with
  | inl message => throw message
  | inr pages =>
      match mergePages (drawPage_TypeError env) pages slidesPerPage with
      | Normal newPdfDoc => ret (PDFDocument_save env newPdfDoc)
      | Throw message => throw message
      | Stuck => stuck
      end
  end.

(** *** [compressPdf] *)

Definition gsCommand (outputPath inputPath : string) : string :=
  "gs -sDEVICE=pdfwrite -dCompatibilityLevel=1.4 -dPDFSETTINGS=/ebook -dNOPAUSE -dQUIET -dBATCH -sOutputFile="
    +:+ quoted outputPath +:+ " " +:+ quoted inputPath.

Definition compressPdf (inputPath outputPath : string) : M unit :=
  r ← exec (gsCommand outputPath inputPath);
  in_callback
    match exec_error r with
    | Some _ => copyFileSync inputPath outputPath
    | None => ret tt
    end.
End Server.

Section Routes.
Variable env : Env.

(** *** The route of the server ([app.post('/convert')]) *)

Definition newJob (file : UploadedFile) : Job :=
  let outputDir := path_resolve env "converted" in
  let baseFileName := replace_pptx (originalname file) EmptyString in
  {| inputPath := path_resolve env (file_path file);
     outputDir := outputDir;
     baseFileName := baseFileName;
     tempPdfPath := path_join env outputDir (baseFileName +:+ "_temp.pdf");
     optimizedPdfPath := path_join env outputDir (baseFileName +:+ "_optimized.pdf");
     finalPdfPath := path_join env outputDir (baseFileName +:+ ".pdf") |}.

(** [parseInt(req.body.slidesPerPage || req.query.slidesPerPage || '1')] *)
Definition requestedSlidesPerPage (req : Request) : jsint :=
  parseInt (js_or (js_or (body_slidesPerPage req) (query_slidesPerPage req)) (Some "1")).

Definition sofficeCommand (job : Job) : string :=
  quoted (libreOfficeCmd env) +:+ " --headless --convert-to pdf "
    +:+ quoted (inputPath job) +:+ " --outdir " +:+ quoted (outputDir job).

Definition possibleNames (job : Job) (file : UploadedFile) : list string :=
  [ baseFileName job +:+ ".pdf";
    path_basename env (inputPath job) (path_extname env (inputPath job)) +:+ ".pdf";
    replace_pptx (originalname file) ".pdf" ].

(** [for (const name of possibleNames) { ... break; }] *)
Fixpoint probe (job : Job) (names : list string) : M (option string) :=
  match names with
  | [] => ret None
  | name :: rest =>
      let testPath := path_join env (outputDir job) name in
      b ← existsSync env testPath;
      if b then ret (Some testPath) else probe job rest
  end.

(** The comparator of the sort reads the modification time of both
    paths; with fewer than two paths it is never called. *)
Fixpoint stat_all (paths : list string) : M (list (string * Z)) :=
  match paths with
  | [] => ret []
  | p :: rest =>
      m ← statSync_mtime env p;
      l ← stat_all rest;
      ret ((p, m) :: l)
  end.

Definition sortByMtime (paths : list string) : M (list string) :=
  match paths with
  | _ :: _ :: _ => l ← stat_all paths; ret (map fst (sort_recent l))
  | _ => ret paths
  end.

Definition scanOutputDir (job : Job) : M (option string) :=
  names ← readdir env (outputDir job);
  let pdfFiles := List.filter ends_with_pdf names in
  match pdfFiles with
  | [] => ret None
  | _ =>
      let pdfPaths := map (path_join env (outputDir job)) pdfFiles in
      sorted ← sortByMtime pdfPaths;
      ret (head sorted)
  end.

(** Step 1: the conversion by LibreOffice and the search for its
    output; the value is [libreOfficeOutput]. *)
Definition convertStage (job : Job) (file : UploadedFile) : M string :=
  r ← exec env (sofficeCommand job);
  match exec_error r with
  | Some message =>
      throw ("LibreOffice conversion failed: " +:+ or_text (exec_stderr r) message)
  | None =>
      let names := possibleNames job file in
      probed ← probe job names;
      found ← (if truthy probed then ret probed
               else scanned ← scanOutputDir job;
                    ret (match scanned with Some p => Some p | None => probed end));
      match found with
      | Some (String c p) =>
          let libreOfficeOutput := String c p in
          b ← existsSync env libreOfficeOutput;
          if b then ret libreOfficeOutput
          else throw ("Converted PDF not found. Searched for: " +:+ join_comma names)
      | _ => throw ("Converted PDF not found. Searched for: " +:+ join_comma names)
      end
  end.

(** Step 2: the value is [pdfToCompress]. *)
Definition mergeStage (job : Job) (slidesPerPage : Z) (libreOfficeOutput : string)
  : M string :=
  if 1 <? slidesPerPage then
    mergedPdfBytes ← mergeSlidesPerPage env libreOfficeOutput slidesPerPage;
    writeFileSync env (tempPdfPath job) mergedPdfBytes ;;
    ret (tempPdfPath job)
  else ret libreOfficeOutput.

(** The cleanup after step 3. *)
Definition cleanupTemporary (job : Job) (libreOfficeOutput : string) : M unit :=
  cleanupFile env (inputPath job) ;;
  b1 ← existsSync env libreOfficeOutput;
  (if b1 && bool_decide (libreOfficeOutput ≠ finalPdfPath job)
   then cleanupFile env libreOfficeOutput else ret tt) ;;
  b2 ← existsSync env (tempPdfPath job);
  (if b2 then cleanupFile env (tempPdfPath job) else ret tt) ;;
  b3 ← existsSync env (optimizedPdfPath job);
  (if b3 && bool_decide (optimizedPdfPath job ≠ finalPdfPath job)
   then cleanupFile env (optimizedPdfPath job) else ret tt).

(** The callback of [res.download]. *)
Definition downloadCallback (job : Job) (err : option string) : M unit :=
  match err with
  | Some _ => ret tt
  | None => setTimeout 1000 (cleanupFile env (finalPdfPath job))
  end.

Definition deliver (job : Job) : M unit :=
  download env (finalPdfPath job) (baseFileName job +:+ ".pdf") (downloadCallback job).

(** Step 3, the cleanup and the delivery. *)
Definition compressAndDeliver (job : Job) (libreOfficeOutput pdfToCompress : string)
  : M unit :=
  compressPdf env pdfToCompress (finalPdfPath job) ;;
  cleanupTemporary job libreOfficeOutput ;;
  deliver job.

(** What follows the conversion inside [try]. *)
Definition afterConversion (job : Job) (slidesPerPage : Z) (libreOfficeOutput : string)
  : M unit :=
  pdfToCompress ← mergeStage job slidesPerPage libreOfficeOutput;
  compressAndDeliver job libreOfficeOutput pdfToCompress.

Definition pipeline (job : Job) (file : UploadedFile) (slidesPerPage : Z) : M unit :=
  libreOfficeOutput ← convertStage job file;
  afterConversion job slidesPerPage libreOfficeOutput.

(** The [catch] block. *)
Definition onError (job : Job) (message : string) : M unit :=
  cleanupFile env (inputPath job) ;;
  b1 ← existsSync env (tempPdfPath job);
  (if b1 then cleanupFile env (tempPdfPath job) else ret tt) ;;
  b2 ← existsSync env (optimizedPdfPath job);
  (if b2 then cleanupFile env (optimizedPdfPath job) else ret tt) ;;
  b3 ← existsSync env (finalPdfPath job);
  (if b3 then cleanupFile env (finalPdfPath job) else ret tt) ;;
  respond 500 (or_text message "Conversion failed.").

(** [if (!fs.existsSync(outputDir)) fs.mkdirSync(outputDir, ...)] *)
Definition ensureOutputDir (job : Job) : M unit :=
  b ← existsSync env (outputDir job);
  if b then ret tt else mkdirSync env (outputDir job).

Definition invalidSlidesPerPage : string :=
  "Invalid slidesPerPage. Must be 1, 2, 3, 4, 6, or 9.".

Definition convert (req : Request) : M unit :=
  match req_file req with
  | None => respond 400 "No file uploaded."
  | Some file =>
      match requestedSlidesPerPage req with
      | Int slidesPerPage =>
          if includes validSlidesPerPage (Int slidesPerPage) then
            let job := newJob file in
            ensureOutputDir job ;;
            try_catch (pipeline job file slidesPerPage) (onError job)
          else
            cleanupFile env (file_path file) ;;
            respond 400 invalidSlidesPerPage
      | NaN =>
          cleanupFile env (file_path file) ;;
          respond 400 invalidSlidesPerPage
      end
  end.

(** *** The route of [src/index.js] *)

Definition downloadCallback_index (inputPath outputPath : string) (err : option string)
  : M unit :=
  match err with
  | Some _ => ret tt
  | None => cleanupFile env inputPath ;; cleanupFile env outputPath
  end.

Definition convert_index (req : Request) : M unit :=
  match req_file req with
  | None => respond 400 "No file uploaded."
  | Some file =>
      let inputPath := path_resolve env (file_path file) in
      let outputDir := path_resolve env "converted" in
      let outputFileName := replace_pptx (originalname file) ".pdf" in
      let outputPath := path_join env outputDir outputFileName in
      r ← exec env ("libreoffice --headless --convert-to pdf " +:+ quoted inputPath
                      +:+ " --outdir " +:+ quoted outputDir);
      in_callback
        match exec_error r with
        | Some _ =>
            cleanupFile env inputPath ;;
            respond 500
              "Conversion failed. Please ensure LibreOffice is installed and accessible in PATH."
        | None =>
            b ← existsSync env outputPath;
            if b then
              download env outputPath outputFileName
                (downloadCallback_index inputPath outputPath)
            else
              cleanupFile env inputPath ;;
              respond 500 "Converted file not found."
        end
  end.
End Routes.

(** ** Runs and their events *)

(** Every event of a run of [c] satisfies [P], however the run ends. *)
Definition emits {A} (P : event -> Prop) (c : M A) : Prop :=
  forall w, exists evs, trace (c w).2 = trace w ++ evs /\ Forall P evs.

(** The world after [cleanupFile p]. *)
Definition after_cleanup (env : Env) (p : string) (w : world) : world :=
  match files w !! key env p with
  | Some (File _ _) =>
      {| files := delete (key env p) (files w); clock := clock w;
         trace := trace w ++ [Unlink p] |}
  | Some (Dir _) =>
      {| files := files w; clock := clock w; trace := trace w ++ [Unlink p] |}
  | None => w
  end.

(** The events that are not part of a composition and not a rejection
    of the request. *)
Definition no_composition (e : event) : Prop :=
  match e with
  | ReadFile _ | WriteFile _ => False
  | Respond status _ => status ≠ 400
  | _ => True
  end.

Definition is_response (e : event) : Prop :=
  match e with
  | Respond _ _ => True
  | _ => False
  end.

(** ** A concrete deployment

    A small instance of the collaborators, used to run the handlers on
    explicit requests: the server runs in [/srv], the upload is stored
    as [uploads/abc123], LibreOffice writes [converted/abc123.pdf], and
    Ghostscript, the document reader and the transfer end as the three
    parameters say. *)

Fixpoint has_slash (s : string) : bool :=
  match s with
  | EmptyString => false
  | String c r => Ascii.eqb c "/" || has_slash r
  end.

Fixpoint last_segment (s : string) : string :=
  match s with
  | EmptyString => EmptyString
  | String c r => if has_slash r then last_segment r
                  else if Ascii.eqb c "/" then r else s
  end.

Fixpoint strip_prefix (p s : string) : option string :=
  match p, s with
  | EmptyString, _ => Some s
  | String a p', String b s' => if Ascii.eqb a b then strip_prefix p' s' else None
  | _, _ => None
  end.

Definition demo_resolve (p : string) : string :=
  if String.prefix "/" p then p else "/srv/" +:+ p.

Definition demo_join (d n : string) : string := d +:+ "/" +:+ n.

Definition demo_readdir (f : gmap string node) (dir : string) : list string :=
  omap (fun k => match strip_prefix (dir +:+ "/") k with
                 | Some n => if has_slash n then None else Some n
                 | None => None
                 end)
       (map fst (map_to_list f)).

Definition pdf_bytes (n : Byte.byte) : bytes :=
  [Byte.x25; Byte.x50; Byte.x44; Byte.x46; n].

Definition exec_ok : exec_result :=
  {| exec_error := None; exec_stdout := "done"; exec_stderr := EmptyString |}.

Definition demo_exec (gs_error : option string) (command : string) (f : gmap string node)
  : exec_result * gmap string node :=
  if String.prefix "gs " command then
    match gs_error with
    | Some e => ({| exec_error := Some e; exec_stdout := EmptyString; exec_stderr := e |}, f)
    | None => (exec_ok, <["/srv/converted/deck.pdf" := File (pdf_bytes Byte.x33) 8]> f)
    end
  else (exec_ok, <["/srv/converted/abc123.pdf" := File (pdf_bytes Byte.x31) 5]> f).

(** A stand-in for the text of the error of [drawPage] in the demo
    deployment. *)
Definition demo_type_error : string :=
  "drawPage: `embeddedPage` must be of type `PDFEmbeddedPage`".

Definition demo_env (gs_error : option string) (loaded : string + list (Size float))
    (sent : option string) : Env :=
  {| libreOfficeCmd := "libreoffice";
     exec_process := demo_exec gs_error;
     path_resolve := demo_resolve;
     path_join := demo_join;
     path_basename := fun p _ => last_segment p;
     path_extname := fun _ => EmptyString;
     readdirSync := demo_readdir;
     PDFDocument_load := fun _ => loaded;
     PDFDocument_save := fun _ => pdf_bytes Byte.x32;
     drawPage_TypeError := demo_type_error;
     transmit := fun _ _ => sent |}.

Definition demo_file : UploadedFile :=
  {| file_path := "uploads/abc123"; originalname := "deck.pptx" |}.

Definition demo_request (slidesPerPage : option string) : Request :=
  {| req_file := Some demo_file;
     body_slidesPerPage := slidesPerPage;
     query_slidesPerPage := None |}.

Definition request_without_file : Request :=
  {| req_file := None; body_slidesPerPage := None; query_slidesPerPage := None |}.

Definition demo_world : world :=
  {| files := {[ "/srv/uploads/abc123" := File [Byte.x50; Byte.x4b] 1;
                 "/srv/converted" := Dir 0 ]};
     clock := 10;
     trace := [] |}.

(** Three slides of 720 x 540 points. *)
Definition slide_4_3 : Size float :=
  {| width := float_of_Z 720; height := float_of_Z 540 |}.
Definition demo_deck : list (Size float) := [slide_4_3; slide_4_3; slide_4_3].

(** Pages used to run the composer: a page of width zero, a page of
    both dimensions zero, and a page of 2^-1020 points each way. *)
Definition zero_width : Size float :=
  {| width := PrimFloat.zero; height := float_of_Z 100 |}.
Definition zero_size : Size float :=
  {| width := PrimFloat.zero; height := PrimFloat.zero |}.

(** A world in which the final file of the upload above is ready to be
    sent. *)
Definition delivering_world : world :=
  {| files := {[ "/srv/converted/deck.pdf" := File (pdf_bytes Byte.x33) 8;
                 "/srv/uploads/abc123" := File [Byte.x50; Byte.x4b] 1;
                 "/srv/converted" := Dir 0 ]};
     clock := 12;
     trace := [] |}.

(** A world in which the conversion has left its output. *)
Definition converted_world : world :=
  {| files := {[ "/srv/converted/abc123.pdf" := File (pdf_bytes Byte.x31) 5;
                 "/srv/uploads/abc123" := File [Byte.x50; Byte.x4b] 1;
                 "/srv/converted" := Dir 0 ]};
     clock := 12;
     trace := [] |}.

(** The same world with a directory where the final file is to go. *)
Definition blocked_world : world :=
  {| files := {[ "/srv/converted/deck.pdf" := Dir 3;
                 "/srv/converted/abc123.pdf" := File (pdf_bytes Byte.x31) 5;
                 "/srv/uploads/abc123" := File [Byte.x50; Byte.x4b] 1;
                 "/srv/converted" := Dir 0 ]};
     clock := 12;
     trace := [] |}.

(** ** Answers to the request *)

(** The events that answer the caller: a JSON error or the download. *)
Definition answer (e : event) : bool :=
  match e with
  | Respond _ _ | Download _ _ => true
  | _ => false
  end.

Definition silent (e : event) : Prop := answer e = false.

(** The answers a run of [c] gives are [good] when it ends normally,
    and there is none when it throws or does not end. *)
Definition answers_as {A} (c : M A) (good : list event -> Prop) : Prop :=
  forall w, exists evs,
    trace (c w).2 = trace w ++ evs /\
    match (c w).1 with
    | Normal _ => good (List.filter answer evs)
    | _ => List.filter answer evs = []
    end.

(** A computation that leaves the world as it found it. *)
Definition readonly {A} (c : M A) : Prop := forall w, (c w).2 = w.

(** Whether the candidate [name] is there, in the files [f]. *)
Definition candidate_exists (env : Env) (job : Job) (f : gmap string node) (name : string)
  : bool :=
  bool_decide (is_Some (f !! key env (path_join env (outputDir job) name))).

(** A deployment in which LibreOffice names its output in a way the
    route does not expect, next to an older document. *)
Definition renaming_env : Env :=
  {| libreOfficeCmd := "libreoffice";
     exec_process := fun _ f =>
       (exec_ok,
        <["/srv/converted/abc123_1.pdf" := File (pdf_bytes Byte.x31) 7]>
          (<["/srv/converted/old.pdf" := File (pdf_bytes Byte.x30) 3]> f));
     path_resolve := demo_resolve;
     path_join := demo_join;
     path_basename := fun p _ => last_segment p;
     path_extname := fun _ => EmptyString;
     readdirSync := demo_readdir;
     PDFDocument_load := fun _ => inr demo_deck;
     PDFDocument_save := fun _ => pdf_bytes Byte.x32;
     drawPage_TypeError := demo_type_error;
     transmit := fun _ _ => None |}.

(** No file is at the resolved path [q]. *)
Definition no_file (w : world) (q : string) : Prop :=
  forall content mtime, files w !! q ≠ Some (File content mtime).

(** A deployment in which every external process fails. *)
Definition failing_env : Env :=
  {| libreOfficeCmd := "libreoffice";
     exec_process := fun _ f =>
       ({| exec_error := Some "Command failed: libreoffice";
           exec_stdout := EmptyString;
           exec_stderr := "Error: source file could not be loaded" |}, f);
     path_resolve := demo_resolve;
     path_join := demo_join;
     path_basename := fun p _ => last_segment p;
     path_extname := fun _ => EmptyString;
     readdirSync := demo_readdir;
     PDFDocument_load := fun _ => inr demo_deck;
     PDFDocument_save := fun _ => pdf_bytes Byte.x32;
     drawPage_TypeError := demo_type_error;
     transmit := fun _ _ => None |}.

(** The command line of the route of [src/index.js]. *)
Definition indexCommand (env : Env) (file : UploadedFile) : string :=
  "libreoffice --headless --convert-to pdf " +:+ quoted (path_resolve env (file_path file))
    +:+ " --outdir " +:+ quoted (path_resolve env "converted").

Definition indexOutputPath (env : Env) (file : UploadedFile) : string :=
  path_join env (path_resolve env "converted") (replace_pptx (originalname file) ".pdf").

(** ** Reading the parameter: shapes of the text *)

Fixpoint all_white (s : string) : bool :=
  match s with
  | EmptyString => true
  | String c s' => is_white_space c && all_white s'
  end.

Definition starts_with_decimal (s : string) : bool :=
  match s with
  | String c _ =>
      let n := Z.of_nat (nat_of_ascii c) in (48 <=? n) && (n <=? 57)
  | EmptyString => false
  end.

Definition body_request (text : string) (query : option string) : Request :=
  {| req_file := Some demo_file;
     body_slidesPerPage := Some text;
     query_slidesPerPage := query |}.

(** ** The command of LibreOffice ([getLibreOfficeCommand]) *)

(** [String.prototype.trim]: white space is removed at both ends. *)
Fixpoint trim_end (s : string) : string :=
  match s with
  | EmptyString => EmptyString
  | String c s' =>
      match trim_end s' with
      | EmptyString => if is_white_space c then EmptyString else String c EmptyString
      | rest => String c rest
      end
  end.

Definition trim (s : string) : string := trim_end (trim_start s).

Definition macPaths : list string :=
  [ "/Applications/LibreOffice.app/Contents/MacOS/soffice";
    "/opt/homebrew/bin/soffice";
    "/usr/local/bin/soffice" ].

(** [platform] is [process.platform], [exists_] is [fs.existsSync] at
    the time the module is loaded, and [which] is what
    [execSync('which soffice ... || which libreoffice ...')] returns,
    [None] when it throws. *)
Definition getLibreOfficeCommand (platform : string) (exists_ : string -> bool)
    (which : option string) : string :=
  match (if String.eqb platform "darwin" then List.find exists_ macPaths else None) with
  | Some macPath => macPath
  | None =>
      match which with
      | Some output =>
          let whichResult := trim output in
          match whichResult with
          | String _ _ => whichResult
          | EmptyString => "libreoffice"
          end
      | None => "libreoffice"
      end
  end.

Definition ppt_file : UploadedFile :=
  {| file_path := "uploads/abc123"; originalname := "deck.ppt" |}.
Definition PPTX_file : UploadedFile :=
  {| file_path := "uploads/abc123"; originalname := "Deck.PPTX" |}.

(** * Properties *)

(** ** The grid resolver *)

Lemma getGridLayout_default (n : Z) :
  n ∉ supported -> getGridLayout n = {| cols := 1; rows := 1 |}.
Proof.
  intros Hn. unfold getGridLayout, layouts.
  assert (n ≠ 2 /\ n ≠ 3 /\ n ≠ 4 /\ n ≠ 6 /\ n ≠ 9) as (?&?&?&?&?).
  { unfold supported in Hn. repeat split; intros ->; apply Hn; set_solver. }
  by rewrite !lookup_insert_ne, lookup_singleton_ne by done.
Qed.

Lemma supported_cases (k : Z) :
  k ∈ supported -> k = 2 \/ k = 3 \/ k = 4 \/ k = 6 \/ k = 9.
Proof.
  unfold supported. rewrite !elem_of_cons, elem_of_nil. tauto.
Qed.

(** ** The loops of the composer *)

Section ComposerFacts.
Context {T : Type} `{JsNumber T}.
Variable type_error : string.

Lemma collectFrom_seqZ rounds K P i j :
  (Z.to_nat (K - j) <= rounds)%nat ->
  collectFrom rounds K P i j = Z.add i <$> seqZ j (Z.min K (P - i) - j).
Proof.
  revert j. induction rounds as [|rounds IH]; intros j Hr; simpl.
  - rewrite seqZ_nil; [done | lia].
  - destruct (j <? K) eqn:HjK; simpl.
    + destruct (i + j <? P) eqn:HjP; simpl.
      * apply Z.ltb_lt in HjK, HjP.
        rewrite (seqZ_cons j) by lia. rewrite fmap_cons. f_equal.
        rewrite IH by lia. do 2 f_equal. lia.
      * apply Z.ltb_ge in HjP. rewrite seqZ_nil; [done | lia].
    + apply Z.ltb_ge in HjK. rewrite seqZ_nil; [done | lia].
Qed.

Lemma collectIndices_seqZ K P i :
  collectIndices K P i = seqZ i (Z.min K (P - i)).
Proof.
  unfold collectIndices. rewrite collectFrom_seqZ by lia.
  rewrite Z.sub_0_r, fmap_add_seqZ. f_equal. lia.
Qed.

Lemma copyPage_Some (pages : list (Size T)) i sz :
  0 <= i -> pages !! Z.to_nat i = Some sz -> copyPage pages i = Some (i, sz).
Proof.
  intros Hi Hsz. unfold copyPage.
  destruct (i <? 0) eqn:Hneg; [apply Z.ltb_lt in Hneg; lia |].
  by rewrite Hsz.
Qed.

Lemma copyPages_seqZ (pages : list (Size T)) i m :
  0 <= i -> i + m <= Z.of_nat (length pages) ->
  exists copied,
    copyPages pages (seqZ i m) = Some copied /\
    map fst copied = seqZ i m /\
    forall (j : nat) c, copied !! j = Some c ->
      c.1 = i + Z.of_nat j /\ pages !! Z.to_nat c.1 = Some c.2.
Proof.
  intros Hi Hm.
  destruct (decide (m <= 0)) as [Hle|Hpos].
  { exists []. rewrite seqZ_nil by done. repeat split; try done. }
  assert (Z.to_nat m = Z.to_nat m) as _ by done.
  remember (Z.to_nat m) as n eqn:Hn.
  assert (m = Z.of_nat n) as -> by lia. clear Hn Hpos.
  revert i Hi Hm. induction n as [|n IH]; intros i Hi Hm.
  { exists []. repeat split; try done. }
  rewrite seqZ_cons by lia.
  destruct (IH (Z.succ i)) as (copied & Hc & Hf & Hl); [lia | lia |].
  destruct (lookup_lt_is_Some_2 pages (Z.to_nat i)) as [sz Hsz]; [lia |].
  exists ((i, sz) :: copied). split; [| split].
  - unfold copyPages in *. apply mapM_Some. apply mapM_Some in Hc.
    constructor.
    + by apply copyPage_Some.
    + by replace (Z.pred (Z.of_nat (S n))) with (Z.of_nat n) by lia.
  - simpl. rewrite Hf. do 2 f_equal. lia.
  - intros [|j] c Hj; simpl in Hj.
    + inversion Hj; subst; simpl. split; [lia | done].
    + destruct (Hl j c Hj) as [-> ?]. split; [lia | done].
Qed.

(** The first call of [drawPage] in a batch throws, and the batch is
    over. *)
Lemma drawBatch_first g j (c : Z * Size T) (rest : list (Z * Size T)) :
  drawBatch type_error g j (c :: rest) = ([drawSlot g j c], Throw type_error).
Proof. reflexivity. Qed.

(** With a positive step, the first round of the outer loop on a
    document that has a page copies the first batch, makes the call of
    [drawPage] for its first page, and ends there with what the call
    throws. *)
Lemma mergeLoop_first_call fuel (sz : Size T) (rest : list (Size T)) K :
  1 <= K ->
  mergeLoop type_error (S fuel) (sz :: rest) K 0
  = Some ([drawSlot (getGridLayout K) 0 (0, sz)], Throw type_error).
Proof.
  intros HK. cbn [mergeLoop].
  set (pages := sz :: rest).
  assert ((0 <? Z.of_nat (length pages)) = true) as ->.
  { apply Z.ltb_lt. unfold pages. simpl. lia. }
  rewrite collectIndices_seqZ.
  set (m := Z.min K (Z.of_nat (length pages) - 0)).
  assert (1 <= m) as Hm by (unfold m, pages; simpl; lia).
  destruct (copyPages_seqZ pages 0 m) as (copied & -> & Hfst & Hcopied);
    [lia | unfold m; lia |].
  rewrite seqZ_cons in Hfst by lia.
  destruct copied as [|c copied]; [done |].
  destruct (Hcopied 0%nat c eq_refl) as [Hc1 Hc2].
  destruct c as [i sz']. simpl in Hc1, Hc2. subst i. simpl in Hc2.
  inversion Hc2; subst sz'.
  by rewrite drawBatch_first.
Qed.

Lemma mergePages_first_call (sz : Size T) (rest : list (Size T)) K :
  1 <= K ->
  mergePages type_error (sz :: rest) K = Throw type_error /\
  drawPageCalls type_error (sz :: rest) K = [drawSlot (getGridLayout K) 0 (0, sz)].
Proof.
  intros HK. unfold mergePages, drawPageCalls.
  by rewrite mergeLoop_first_call.
Qed.

(** With a step that is not positive and a page to process, no number
    of rounds ends the loop. *)
Lemma mergeLoop_diverges fuel (pages : list (Size T)) K i :
  K <= 0 -> i < Z.of_nat (length pages) -> mergeLoop type_error fuel pages K i = None.
Proof.
  intros HK. revert i. induction fuel as [|fuel IH]; intros i Hi; simpl; [done |].
  destruct (i <? Z.of_nat (length pages)) eqn:Hlt; [| apply Z.ltb_ge in Hlt; lia].
  rewrite collectIndices_seqZ, seqZ_nil by lia. simpl.
  by rewrite IH by lia.
Qed.
End ComposerFacts.

(** ** Properties of the composer *)

Lemma supported_positive (K : Z) : K ∈ supported -> 1 <= K.
Proof. intros HK. destruct (supported_cases K HK) as [->|[->|[->|[->| ->]]]]; lia. Qed.

(** C3: the grid resolver is a function (equal inputs give equal
    grids) that maps 1 to (1,1), 2 to (1,2), 3 to (1,3), 4 to (2,2),
    6 to (2,3) and 9 to (3,3), written (columns, rows); every other
    integer gets the default grid (1,1); and the grid of a supported
    value has at least that many cells. *)
Theorem C3_grid_resolver :
  (getGridLayout 1 = {| cols := 1; rows := 1 |} /\
   getGridLayout 2 = {| cols := 1; rows := 2 |} /\
   getGridLayout 3 = {| cols := 1; rows := 3 |} /\
   getGridLayout 4 = {| cols := 2; rows := 2 |} /\
   getGridLayout 6 = {| cols := 2; rows := 3 |} /\
   getGridLayout 9 = {| cols := 3; rows := 3 |}) /\
  (forall n, n ∉ validSlidesPerPage -> getGridLayout n = {| cols := 1; rows := 1 |}) /\
  (forall n, n ∈ validSlidesPerPage ->
             n <= cols (getGridLayout n) * rows (getGridLayout n)) /\
  (forall n m, n = m -> getGridLayout n = getGridLayout m).
Proof.
  split; [repeat split |]. split; [| split].
  - intros n Hn. apply getGridLayout_default. intros Hs. apply Hn.
    unfold validSlidesPerPage. apply elem_of_cons. by right.
  - intros n Hn. unfold validSlidesPerPage in Hn.
    apply elem_of_cons in Hn as [->|Hn]; [vm_compute; discriminate |].
    destruct (supported_cases n Hn) as [->|[->|[->|[->| ->]]]];
      vm_compute; discriminate.
  - by intros n m ->.
Qed.

(** The theorem at the unlisted value 5 and at the listed value 6. *)
Lemma C3_witness :
  getGridLayout 5 = {| cols := 1; rows := 1 |} /\
  6 <= cols (getGridLayout 6) * rows (getGridLayout 6).
Proof.
  destruct C3_grid_resolver as (_ & Hother & Hcells & _). split.
  - apply Hother. unfold validSlidesPerPage. intros Hin.
    repeat (apply elem_of_cons in Hin as [?|Hin]; [done |]).
    by apply elem_of_nil in Hin.
  - apply Hcells. apply (list_elem_of_lookup_2 validSlidesPerPage 4%nat). reflexivity.
Defined.

(** C1, at the code: for every document that has a page and every K
    in {2,3,4,6,9} the loops of [mergeSlidesPerPage] make one call of
    [drawPage], for the first page of the source, and end with the
    [TypeError] that this call throws: the [PDFPage] objects of
    [copyPages] are not what [drawPage] draws.  No output document is
    produced, and [mergeSlidesPerPage] throws after it has read the
    file at [pdfPath]. *)
Theorem C1_composition_throws (type_error : string) (pages : list (Size float)) (K : Z) :
  K ∈ supported -> pages ≠ [] ->
  mergePages type_error pages K = Throw type_error /\
  (exists d, drawPageCalls type_error pages K = [d] /\ source d = 0) /\
  forall (env : Env) (pdfPath : string) (w : world) (content : bytes) (mtime : Z),
    files w !! key env pdfPath = Some (File content mtime) ->
    PDFDocument_load env content = inr pages ->
    mergeSlidesPerPage env pdfPath K w
    = (Throw (drawPage_TypeError env),
       {| files := files w; clock := clock w; trace := trace w ++ [ReadFile pdfPath] |}).
Proof.
  intros HK Hpages. destruct pages as [|sz rest]; [done |].
  pose proof (supported_positive K HK) as HK1.
  split; [| split].
  - by apply mergePages_first_call.
  - eexists. split; [by apply mergePages_first_call | done].
  - intros env pdfPath w content mtime Hfile Hload.
    unfold mergeSlidesPerPage, readFileSync, bind, get_files; simpl.
    rewrite Hfile. unfold emit; simpl. rewrite Hload.
    by rewrite (proj1 (mergePages_first_call (drawPage_TypeError env) sz rest K HK1)).
Qed.

(** The theorem at a deck of three slides, two to a page. *)
Lemma C1_witness :
  mergePages demo_type_error demo_deck 2 = Throw demo_type_error /\
  (exists d, drawPageCalls demo_type_error demo_deck 2 = [d] /\ source d = 0) /\
  forall (env : Env) (pdfPath : string) (w : world) (content : bytes) (mtime : Z),
    files w !! key env pdfPath = Some (File content mtime) ->
    PDFDocument_load env content = inr demo_deck ->
    mergeSlidesPerPage env pdfPath 2 w
    = (Throw (drawPage_TypeError env),
       {| files := files w; clock := clock w; trace := trace w ++ [ReadFile pdfPath] |}).
Proof.
  apply (C1_composition_throws demo_type_error demo_deck 2).
  - apply (list_elem_of_lookup_2 supported 0%nat). reflexivity.
  - discriminate.
Defined.


(** ** The arguments of [drawPage] *)




(** C8, as the code has it: for a first page of width zero the
    division by zero is made (it gives Infinity), the scale is computed
    from it, and the call of [drawPage] for the page is made, with the
    width zero. *)
Lemma C8_zero_width_is_computed :
  let g := getGridLayout 2 in
  PrimFloat.div (slideWidth g) (width zero_width) = PrimFloat.infinity /\
  fit_scale g zero_width
    = float_min PrimFloat.infinity (PrimFloat.div (slideHeight g) (height zero_width)) /\
  drawPageCalls demo_type_error [zero_width] 2
    = [ {| source := 0;
           at_x := 306%float;
           at_y := 391%float;
           drawn_width := 0%float;
           drawn_height := 381%float |} ].
Proof. repeat split; vm_compute; reflexivity. Qed.

(** C8, amended: the composer makes no check of the size of a page.
    The first page of a document, also when its width or height is
    zero, goes through the scale computation and is handed to
    [drawPage] with the results: a width of zero makes [scaleX]
    Infinity, a width of minus zero makes it minus Infinity, and the
    same holds of the height and [scaleY]; when both are zero the size
    handed over is NaN. *)
Theorem C8_no_check_of_page_size (type_error : string) (sz : Size float)
    (rest : list (Size float)) (K : Z) :
  K ∈ supported ->
  let g := getGridLayout K in
  let scaleX := PrimFloat.div (slideWidth g) (width sz) in
  let scaleY := PrimFloat.div (slideHeight g) (height sz) in
  let scale := float_min scaleX scaleY in
  (exists d,
     head (drawPageCalls type_error (sz :: rest) K) = Some d /\
     source d = 0 /\
     drawn_width d = PrimFloat.mul (width sz) scale /\
     drawn_height d = PrimFloat.mul (height sz) scale) /\
  (width sz = PrimFloat.zero -> scaleX = PrimFloat.infinity) /\
  (width sz = PrimFloat.neg_zero -> scaleX = PrimFloat.neg_infinity) /\
  (height sz = PrimFloat.zero -> scaleY = PrimFloat.infinity) /\
  (height sz = PrimFloat.neg_zero -> scaleY = PrimFloat.neg_infinity) /\
  (width sz = PrimFloat.zero \/ width sz = PrimFloat.neg_zero ->
   height sz = PrimFloat.zero \/ height sz = PrimFloat.neg_zero ->
   PrimFloat.is_nan (PrimFloat.mul (width sz) scale) = true /\
   PrimFloat.is_nan (PrimFloat.mul (height sz) scale) = true).
Proof.
  intros HK g scaleX scaleY scale.
  split.
  { destruct (mergePages_first_call type_error sz rest K (supported_positive K HK))
      as [_ ->].
    eexists. split; [reflexivity |]. repeat split. }
  subst scale scaleX scaleY g. destruct sz as [w h]; simpl.
  split; [| split; [| split; [| split]]].
  - intros ->.
    destruct (supported_cases K HK) as [->|[->|[->|[->| ->]]]]; vm_compute; reflexivity.
  - intros ->.
    destruct (supported_cases K HK) as [->|[->|[->|[->| ->]]]]; vm_compute; reflexivity.
  - intros ->.
    destruct (supported_cases K HK) as [->|[->|[->|[->| ->]]]]; vm_compute; reflexivity.
  - intros ->.
    destruct (supported_cases K HK) as [->|[->|[->|[->| ->]]]]; vm_compute; reflexivity.
  - intros [-> | ->] [-> | ->];
      destruct (supported_cases K HK) as [->|[->|[->|[->| ->]]]];
      split; vm_compute; reflexivity.
Qed.

(** The theorem at a page of width and height zero. *)
Lemma C8_witness :
  let g := getGridLayout 2 in
  let scaleX := PrimFloat.div (slideWidth g) (width zero_size) in
  let scaleY := PrimFloat.div (slideHeight g) (height zero_size) in
  let scale := float_min scaleX scaleY in
  (exists d,
     head (drawPageCalls demo_type_error [zero_size] 2) = Some d /\
     source d = 0 /\
     drawn_width d = PrimFloat.mul (width zero_size) scale /\
     drawn_height d = PrimFloat.mul (height zero_size) scale) /\
  (width zero_size = PrimFloat.zero -> scaleX = PrimFloat.infinity) /\
  (width zero_size = PrimFloat.neg_zero -> scaleX = PrimFloat.neg_infinity) /\
  (height zero_size = PrimFloat.zero -> scaleY = PrimFloat.infinity) /\
  (height zero_size = PrimFloat.neg_zero -> scaleY = PrimFloat.neg_infinity) /\
  (width zero_size = PrimFloat.zero \/ width zero_size = PrimFloat.neg_zero ->
   height zero_size = PrimFloat.zero \/ height zero_size = PrimFloat.neg_zero ->
   PrimFloat.is_nan (PrimFloat.mul (width zero_size) scale) = true /\
   PrimFloat.is_nan (PrimFloat.mul (height zero_size) scale) = true).
Proof.
  apply (C8_no_check_of_page_size demo_type_error zero_size [] 2).
  apply (list_elem_of_lookup_2 supported 0%nat). reflexivity.
Defined.

(** ** Events of the handlers *)

Lemma events_since_app (w w' : world) evs :
  trace w' = trace w ++ evs -> events_since w w' = evs.
Proof. intros Ht. unfold events_since. by rewrite Ht, drop_app_length. Qed.

Section Emits.
Context {A B : Type} (P : event -> Prop).

Lemma emits_ret (a : A) : emits P (ret a).
Proof. intros w. exists []. by rewrite app_nil_r. Qed.

Lemma emits_throw msg : emits P (throw (A := A) msg).
Proof. intros w. exists []. by rewrite app_nil_r. Qed.

Lemma emits_stuck : emits P (stuck (A := A)).
Proof. intros w. exists []. by rewrite app_nil_r. Qed.

Lemma emits_bind (c : M A) (k : A -> M B) :
  emits P c -> (forall a, emits P (k a)) -> emits P (bind c k).
Proof.
  intros Hc Hk w. unfold bind.
  destruct (Hc w) as (evs & Ht & Hevs).
  destruct (c w) as [[a| |] w1]; simpl in Ht; try by exists evs.
  destruct (Hk a w1) as (evs' & Ht' & Hevs').
  exists (evs ++ evs'). split; [| by apply Forall_app].
  by rewrite Ht', Ht, app_assoc.
Qed.

Lemma emits_try_catch (c : M A) (h : string -> M A) :
  emits P c -> (forall e, emits P (h e)) -> emits P (try_catch c h).
Proof.
  intros Hc Hh w. unfold try_catch.
  destruct (Hc w) as (evs & Ht & Hevs).
  destruct (c w) as [[a|e|] w1]; simpl in Ht; try by exists evs.
  destruct (Hh e w1) as (evs' & Ht' & Hevs').
  exists (evs ++ evs'). split; [| by apply Forall_app].
  by rewrite Ht', Ht, app_assoc.
Qed.

Lemma emits_in_callback (c : M A) : emits P c -> emits P (in_callback c).
Proof.
  intros Hc w. unfold in_callback.
  destruct (Hc w) as (evs & Ht & Hevs).
  destruct (c w) as [[a|e|] w1]; simpl in Ht; by exists evs.
Qed.
End Emits.

Lemma emits_emit P e : P e -> emits P (emit e).
Proof. intros He w. exists [e]. split; [done |]. by constructor. Qed.

Lemma emits_get_files P : emits P get_files.
Proof. intros w. exists []. by rewrite app_nil_r. Qed.

Lemma emits_set_files P f : emits P (set_files f).
Proof. intros w. exists []. simpl. by rewrite app_nil_r. Qed.

Lemma emits_tick P ms : emits P (tick ms).
Proof. intros w. exists []. simpl. by rewrite app_nil_r. Qed.

Lemma emits_exec P env command : P (Exec command) -> emits P (exec env command).
Proof.
  intros He w. exists [Exec command]. unfold exec.
  destruct (exec_process env command (files w)) as [r f]. simpl.
  split; [done |]. by constructor.
Qed.

(** One step of the proof that a computation emits only events of [P]:
    the structure of the computation is followed, and what is left are
    the events themselves. *)
Ltac emits_step :=
  match goal with
  | |- emits _ (bind _ _) => apply emits_bind; [| intros ?]
  | |- emits _ (ret _) => apply emits_ret
  | |- emits _ (throw _) => apply emits_throw
  | |- emits _ stuck => apply emits_stuck
  | |- emits _ (try_catch _ _) => apply emits_try_catch; [| intros ?]
  | |- emits _ (in_callback _) => apply emits_in_callback
  | |- emits _ (emit _) => apply emits_emit
  | |- emits _ get_files => apply emits_get_files
  | |- emits _ (set_files _) => apply emits_set_files
  | |- emits _ (tick _) => apply emits_tick
  | |- emits _ (exec _ _) => apply emits_exec
  | |- emits _ (if ?b then _ else _) => destruct b
  | |- emits _ (match ?x with _ => _ end) => destruct x
  end.
Ltac emits_auto := repeat emits_step; try done.

Section PrimitiveEvents.
Variable env : Env.
Variable P : event -> Prop.

Lemma emits_existsSync p : emits P (existsSync env p).
Proof. unfold existsSync. emits_auto. Qed.

Lemma emits_unlink p : P (Unlink p) -> emits P (unlink env p).
Proof. intros. unfold unlink. emits_auto. Qed.

Lemma emits_cleanupFile p : P (Unlink p) -> emits P (cleanupFile env p).
Proof.
  intros. unfold cleanupFile. apply emits_bind; [apply emits_existsSync |].
  intros []; [by apply emits_unlink | apply emits_ret].
Qed.

Lemma emits_mkdirSync p : P (Mkdir p) -> emits P (mkdirSync env p).
Proof. intros. unfold mkdirSync. emits_auto. Qed.

Lemma emits_readFileSync p : P (ReadFile p) -> emits P (readFileSync env p).
Proof. intros. unfold readFileSync. emits_auto. Qed.

Lemma emits_writeFileSync p content :
  P (WriteFile p) -> emits P (writeFileSync env p content).
Proof. intros. unfold writeFileSync. emits_auto. Qed.

Lemma emits_copyFileSync src dst :
  P (CopyFile src dst) -> emits P (copyFileSync env src dst).
Proof. intros. unfold copyFileSync. emits_auto. Qed.

Lemma emits_statSync_mtime p : emits P (statSync_mtime env p).
Proof. unfold statSync_mtime. emits_auto. Qed.

Lemma emits_readdir dir : emits P (readdir env dir).
Proof. unfold readdir. emits_auto. Qed.

Lemma emits_respond status error :
  P (Respond status error) -> emits P (respond status error).
Proof. intros. unfold respond. emits_auto. Qed.

Lemma emits_setTimeout ms c :
  P (SetTimeout ms) -> emits P c -> emits P (setTimeout ms c).
Proof. intros. unfold setTimeout. emits_auto. Qed.

Lemma emits_download p name callback :
  P (Download p name) -> (forall err, emits P (callback err)) ->
  emits P (download env p name callback).
Proof. intros. unfold download. emits_auto. Qed.

Lemma emits_compressPdf inputPath outputPath :
  P (Exec (gsCommand outputPath inputPath)) -> P (CopyFile inputPath outputPath) ->
  emits P (compressPdf env inputPath outputPath).
Proof.
  intros. unfold compressPdf. apply emits_bind; [by apply emits_exec |].
  intros r. apply emits_in_callback.
  destruct (exec_error r); [by apply emits_copyFileSync | apply emits_ret].
Qed.

Lemma emits_mergeSlidesPerPage pdfPath K :
  P (ReadFile pdfPath) -> emits P (mergeSlidesPerPage env pdfPath K).
Proof.
  intros. unfold mergeSlidesPerPage.
  apply emits_bind; [by apply emits_readFileSync |]. intros content.
  emits_auto.
Qed.
End PrimitiveEvents.

(** ** The stages of the route *)

Lemma bind_run {A B} (c : M A) (k : A -> M B) w a w1 :
  c w = (Normal a, w1) -> bind c k w = k a w1.
Proof. intros Hc. unfold bind. by rewrite Hc. Qed.

Section CleanupFacts.
Variable env : Env.

Lemma existsSync_run p w :
  existsSync env p w = (Normal (bool_decide (is_Some (files w !! key env p))), w).
Proof. reflexivity. Qed.

Lemma cleanupFile_run p w :
  cleanupFile env p w = (Normal tt, after_cleanup env p w).
Proof.
  unfold cleanupFile. rewrite (bind_run _ _ _ _ _ (existsSync_run p w)).
  unfold after_cleanup.
  destruct (files w !! key env p) as [[c m|m]|] eqn:Hp.
  - rewrite bool_decide_eq_true_2 by eauto.
    unfold unlink, bind, emit, get_files, set_files; simpl. by rewrite Hp.
  - rewrite bool_decide_eq_true_2 by eauto.
    unfold unlink, bind, emit, get_files, ret; simpl. by rewrite Hp.
  - rewrite bool_decide_eq_false_2 by (by intros [? ?]). done.
Qed.

Lemma after_cleanup_files p w q :
  q ≠ key env p -> files (after_cleanup env p w) !! q = files w !! q.
Proof.
  intros Hq. unfold after_cleanup.
  destruct (files w !! key env p) as [[c m|m]|]; simpl; try done.
  by rewrite lookup_delete_ne.
Qed.

Lemma after_cleanup_file_gone p w content mtime :
  files w !! key env p = Some (File content mtime) ->
  after_cleanup env p w
    = {| files := delete (key env p) (files w); clock := clock w;
         trace := trace w ++ [Unlink p] |}.
Proof. intros Hp. unfold after_cleanup. by rewrite Hp. Qed.

Lemma after_cleanup_clock p w : clock (after_cleanup env p w) = clock w.
Proof.
  unfold after_cleanup. by destruct (files w !! key env p) as [[c m|m]|].
Qed.

Lemma after_cleanup_trace p w :
  trace (after_cleanup env p w)
    = trace w ++ (if bool_decide (is_Some (files w !! key env p)) then [Unlink p] else []).
Proof.
  unfold after_cleanup.
  destruct (files w !! key env p) as [[c m|m]|] eqn:Hp.
  - by rewrite bool_decide_eq_true_2 by eauto.
  - by rewrite bool_decide_eq_true_2 by eauto.
  - rewrite bool_decide_eq_false_2 by (by intros [? ?]). by rewrite app_nil_r.
Qed.

Lemma maybe_cleanup_run (b : bool) p w :
  (if b then cleanupFile env p else ret tt) w
    = (Normal tt, if b then after_cleanup env p w else w).
Proof. destruct b; [apply cleanupFile_run | done]. Qed.

Lemma only_unlinks_maybe (b : bool) p w0 w1 w2 :
  (exists evs, trace w1 = trace w0 ++ evs /\ Forall (fun e => exists q, e = Unlink q) evs) ->
  w2 = (if b then after_cleanup env p w1 else w1) ->
  exists evs, trace w2 = trace w0 ++ evs /\ Forall (fun e => exists q, e = Unlink q) evs.
Proof.
  intros (evs & Ht & Hevs) ->. destruct b; [| by exists evs].
  rewrite after_cleanup_trace, Ht, <- app_assoc.
  eexists. split; [reflexivity |]. apply Forall_app. split; [done |].
  case_bool_decide; [| constructor]. constructor; [by eexists | constructor].
Qed.

(** The cleanup after compression ends normally, only unlinks, and
    leaves alone every path that is not one it cleans. *)
Lemma cleanupTemporary_run job lo w :
  exists w',
    cleanupTemporary env job lo w = (Normal tt, w') /\
    (exists evs, trace w' = trace w ++ evs /\
                 Forall (fun e => exists p, e = Unlink p) evs) /\
    forall q,
      q ≠ key env (inputPath job) ->
      (lo ≠ finalPdfPath job -> q ≠ key env lo) ->
      q ≠ key env (tempPdfPath job) ->
      (optimizedPdfPath job ≠ finalPdfPath job -> q ≠ key env (optimizedPdfPath job)) ->
      files w' !! q = files w !! q.
Proof.
  unfold cleanupTemporary.
  rewrite (bind_run _ _ _ _ _ (cleanupFile_run _ w)).
  set (w1 := after_cleanup env (inputPath job) w).
  rewrite (bind_run _ _ _ _ _ (existsSync_run _ w1)).
  rewrite (bind_run _ _ _ _ _ (maybe_cleanup_run _ _ w1)).
  set (b1 := bool_decide (is_Some (files w1 !! key env lo))
             && bool_decide (lo ≠ finalPdfPath job)).
  set (w2 := if b1 then after_cleanup env lo w1 else w1).
  rewrite (bind_run _ _ _ _ _ (existsSync_run _ w2)).
  rewrite (bind_run _ _ _ _ _ (maybe_cleanup_run _ _ w2)).
  set (b2 := bool_decide (is_Some (files w2 !! key env (tempPdfPath job)))).
  set (w3 := if b2 then after_cleanup env (tempPdfPath job) w2 else w2).
  rewrite (bind_run _ _ _ _ _ (existsSync_run _ w3)).
  rewrite maybe_cleanup_run.
  set (b3 := bool_decide (is_Some (files w3 !! key env (optimizedPdfPath job)))
             && bool_decide (optimizedPdfPath job ≠ finalPdfPath job)).
  eexists. split; [reflexivity |]. split.
  - apply (only_unlinks_maybe b3 (optimizedPdfPath job) w w3); [| done].
    apply (only_unlinks_maybe b2 (tempPdfPath job) w w2); [| done].
    apply (only_unlinks_maybe b1 lo w w1); [| done].
    apply (only_unlinks_maybe true (inputPath job) w w); [| done].
    exists []. by rewrite app_nil_r.
  - intros q Hin Hlo Htemp Hopt.
    transitivity (files w3 !! q).
    { destruct b3 eqn:Hb3; [| done]. apply after_cleanup_files, Hopt.
      subst b3. apply andb_prop in Hb3 as [_ Hne]. by apply bool_decide_eq_true in Hne. }
    transitivity (files w2 !! q).
    { subst w3. destruct b2; [| done]. by apply after_cleanup_files. }
    transitivity (files w1 !! q).
    { subst w2. destruct b1 eqn:Hb1; [| done]. apply after_cleanup_files, Hlo.
      subst b1. apply andb_prop in Hb1 as [_ Hne]. by apply bool_decide_eq_true in Hne. }
    subst w1. by apply after_cleanup_files.
Qed.
End CleanupFacts.

(** ** Delivery *)

Section Delivery.
Variable env : Env.

Lemma deliver_run job w :
  deliver env job w
  = (Normal tt,
     match transmit env (files w) (finalPdfPath job) with
     | Some _ =>
         {| files := files w; clock := clock w;
            trace := trace w ++ [Download (finalPdfPath job) (baseFileName job +:+ ".pdf")] |}
     | None =>
         after_cleanup env (finalPdfPath job)
           {| files := files w; clock := clock w + 1000;
              trace := (trace w ++ [Download (finalPdfPath job) (baseFileName job +:+ ".pdf")])
                         ++ [SetTimeout 1000] |}
     end).
Proof.
  unfold deliver, download, bind, emit, get_files, in_callback, downloadCallback; simpl.
  destruct (transmit env (files w) (finalPdfPath job)); [done |].
  unfold setTimeout, bind, emit, tick, in_callback; simpl.
  by rewrite cleanupFile_run.
Qed.

Lemma download_index_run inputPath outputPath name w :
  download env outputPath name (downloadCallback_index env inputPath outputPath) w
  = (Normal tt,
     match transmit env (files w) outputPath with
     | Some _ =>
         {| files := files w; clock := clock w;
            trace := trace w ++ [Download outputPath name] |}
     | None =>
         after_cleanup env outputPath
           (after_cleanup env inputPath
              {| files := files w; clock := clock w;
                 trace := trace w ++ [Download outputPath name] |})
     end).
Proof.
  unfold download, bind, emit, get_files, in_callback, downloadCallback_index; simpl.
  destruct (transmit env (files w) outputPath); [done |].
  unfold bind. by rewrite !cleanupFile_run.
Qed.
End Delivery.

(** C9, amended: when the response has been sent, the server route
    sets a timer of 1000 ms and then unlinks the final file; when the
    transfer fails, the callback only logs the error: no timer is set,
    nothing is unlinked and the final file stays.  The route of
    [src/index.js] unlinks the upload and the output at once when the
    response has been sent, and nothing when the transfer fails. *)
Theorem C9_cleanup_follows_a_sent_response (env : Env) (job : Job) (w : world)
    (content : bytes) (mtime : Z) (inputPath outputPath name : string)
    (content_in content_out : bytes) (mtime_in mtime_out : Z) :
  files w !! key env (finalPdfPath job) = Some (File content mtime) ->
  files w !! key env inputPath = Some (File content_in mtime_in) ->
  files w !! key env outputPath = Some (File content_out mtime_out) ->
  key env inputPath ≠ key env outputPath ->
  (exists w',
     deliver env job w = (Normal tt, w') /\
     match transmit env (files w) (finalPdfPath job) with
     | None =>
         events_since w w'
           = [Download (finalPdfPath job) (baseFileName job +:+ ".pdf");
              SetTimeout 1000; Unlink (finalPdfPath job)] /\
         files w' = delete (key env (finalPdfPath job)) (files w) /\
         clock w' = clock w + 1000
     | Some _ =>
         events_since w w' = [Download (finalPdfPath job) (baseFileName job +:+ ".pdf")] /\
         files w' = files w /\
         clock w' = clock w
     end) /\
  (exists w',
     download env outputPath name (downloadCallback_index env inputPath outputPath) w
       = (Normal tt, w') /\
     match transmit env (files w) outputPath with
     | None =>
         events_since w w' = [Download outputPath name; Unlink inputPath; Unlink outputPath] /\
         files w' = delete (key env outputPath) (delete (key env inputPath) (files w)) /\
         clock w' = clock w
     | Some _ =>
         events_since w w' = [Download outputPath name] /\
         files w' = files w /\
         clock w' = clock w
     end).
Proof.
  intros Hfinal Hin Hout Hne. split.
  - eexists. split; [apply deliver_run |].
    destruct (transmit env (files w) (finalPdfPath job)).
    + split; [by apply events_since_app | done].
    + erewrite after_cleanup_file_gone by exact Hfinal. simpl.
      split; [| done]. apply events_since_app. simpl. by rewrite <- !app_assoc.
  - eexists. split; [apply download_index_run |].
    destruct (transmit env (files w) outputPath).
    + split; [by apply events_since_app | done].
    + erewrite (after_cleanup_file_gone env inputPath) by exact Hin. simpl.
      erewrite (after_cleanup_file_gone env outputPath)
        by (simpl; rewrite lookup_delete_ne by done; exact Hout).
      simpl. split; [| done]. apply events_since_app. simpl. by rewrite <- !app_assoc.
Qed.

(** ** Compression *)

Section Compression.
Variable env : Env.

Lemma deliver_events job w :
  exists w' evs,
    deliver env job w = (Normal tt, w') /\
    trace w' = trace w ++ Download (finalPdfPath job) (baseFileName job +:+ ".pdf") :: evs /\
    Forall (fun e => ~ is_response e) evs.
Proof.
  destruct (transmit env (files w) (finalPdfPath job)) eqn:Hsent.
  - eexists. exists []. rewrite deliver_run, Hsent.
    split; [reflexivity |]. split; [reflexivity | constructor].
  - eexists. eexists. rewrite deliver_run, Hsent.
    split; [reflexivity |]. rewrite after_cleanup_trace. simpl.
    rewrite <- !app_assoc. simpl. split; [reflexivity |].
    constructor; [by intros [] |].
    case_bool_decide; [| constructor]. constructor; [by intros [] | constructor].
Qed.

(** The fallback of [compressPdf]: the world after a failed run of
    Ghostscript that left the files [f1]. *)
Lemma compressPdf_fallback inputPath outputPath w r f1 content mtime :
  exec_process env (gsCommand outputPath inputPath) (files w) = (r, f1) ->
  is_Some (exec_error r) ->
  f1 !! key env inputPath = Some (File content mtime) ->
  (forall m, f1 !! key env outputPath ≠ Some (Dir m)) ->
  exists w1,
    compressPdf env inputPath outputPath w = (Normal tt, w1) /\
    trace w1 = trace w ++ [Exec (gsCommand outputPath inputPath);
                           CopyFile inputPath outputPath] /\
    (exists m, files w1 !! key env outputPath = Some (File content m)) /\
    (exists m, files w1 !! key env inputPath = Some (File content m)) /\
    forall q, q ≠ key env outputPath -> files w1 !! q = f1 !! q.
Proof.
  intros Hexec [e He] Hin Hout.
  unfold compressPdf, bind, exec. rewrite Hexec, He. simpl.
  unfold in_callback, copyFileSync, bind, get_files; simpl. rewrite Hin.
  assert (forall (X : Type) (a b : X),
            match f1 !! key env outputPath with
            | Some (Dir _) => a
            | _ => b
            end = b) as Hnodir.
  { intros X a b. destruct (f1 !! key env outputPath) as [[? ?|m]|] eqn:Ho; try done.
    by destruct (Hout m). }
  rewrite Hnodir. unfold emit; simpl.
  destruct (decide (key env inputPath = key env outputPath)) as [Heq|Hne]; simpl.
  - eexists. split; [reflexivity |]. simpl. rewrite <- app_assoc.
    split; [done |]. rewrite <- Heq. eauto.
  - eexists. split; [reflexivity |]. simpl. rewrite <- app_assoc.
    split; [done |]. rewrite lookup_insert_eq, lookup_insert_ne by done.
    split; [eauto |]. split; [eauto |].
    intros q Hq. by rewrite lookup_insert_ne.
Qed.
End Compression.

(** C6, amended: when Ghostscript fails and leaves its input a file
    and the final path free of a directory, [compressPdf]
    resolves and the output path holds the bytes of the input; the rest
    of the pipeline then runs to the delivery of the final file, sends
    no error response, and the final path, when the paths cleaned in
    between are other files, still holds those bytes when it is sent. *)
Theorem C6_compression_failure_is_not_fatal (env : Env) (job : Job)
    (libreOfficeOutput pdfToCompress : string) (w : world)
    (r : exec_result) (f1 : gmap string node) (content : bytes) (mtime : Z) :
  exec_process env (gsCommand (finalPdfPath job) pdfToCompress) (files w) = (r, f1) ->
  is_Some (exec_error r) ->
  f1 !! key env pdfToCompress = Some (File content mtime) ->
  (forall m, f1 !! key env (finalPdfPath job) ≠ Some (Dir m)) ->
  (exists w1,
     compressPdf env pdfToCompress (finalPdfPath job) w = (Normal tt, w1) /\
     events_since w w1 = [Exec (gsCommand (finalPdfPath job) pdfToCompress);
                          CopyFile pdfToCompress (finalPdfPath job)] /\
     (exists m, files w1 !! key env (finalPdfPath job) = Some (File content m)) /\
     (exists m, files w1 !! key env pdfToCompress = Some (File content m)) /\
     forall q, q ≠ key env (finalPdfPath job) -> files w1 !! q = f1 !! q) /\
  (exists wd w2,
     compressAndDeliver env job libreOfficeOutput pdfToCompress w = deliver env job wd /\
     deliver env job wd = (Normal tt, w2) /\
     Forall (fun e => ~ is_response e) (events_since w w2) /\
     Download (finalPdfPath job) (baseFileName job +:+ ".pdf") ∈ events_since w w2 /\
     (key env (inputPath job) ≠ key env (finalPdfPath job) ->
      (libreOfficeOutput ≠ finalPdfPath job ->
       key env libreOfficeOutput ≠ key env (finalPdfPath job)) ->
      key env (tempPdfPath job) ≠ key env (finalPdfPath job) ->
      (optimizedPdfPath job ≠ finalPdfPath job ->
       key env (optimizedPdfPath job) ≠ key env (finalPdfPath job)) ->
      exists m, files wd !! key env (finalPdfPath job) = Some (File content m))).
Proof.
  intros Hexec Herr Hin Hout.
  destruct (compressPdf_fallback env _ _ _ _ _ _ _ Hexec Herr Hin Hout)
    as (w1 & Hrun & Htrace & Hfinal & Hinput & Hothers).
  split.
  { exists w1. split; [done |]. split; [by apply events_since_app | done]. }
  destruct (cleanupTemporary_run env job libreOfficeOutput w1)
    as (wd & Hclean & (evs & Hevs & Hunlinks) & Hkeep).
  destruct (deliver_events env job wd) as (w2 & evs' & Hdeliver & Htrace' & Hquiet).
  exists wd, w2. split.
  { unfold compressAndDeliver.
    rewrite (bind_run _ _ _ _ _ Hrun). by rewrite (bind_run _ _ _ _ _ Hclean). }
  split; [done |].
  assert (events_since w w2
          = [Exec (gsCommand (finalPdfPath job) pdfToCompress);
             CopyFile pdfToCompress (finalPdfPath job)]
            ++ evs ++ Download (finalPdfPath job) (baseFileName job +:+ ".pdf") :: evs')
    as ->.
  { apply events_since_app. rewrite Htrace', Hevs, Htrace. by rewrite <- !app_assoc. }
  split; [| split].
  - apply Forall_app. split; [repeat constructor; by intros [] |].
    apply Forall_app. split.
    + eapply Forall_impl; [exact Hunlinks |]. intros e [p ->]. by intros [].
    + constructor; [by intros [] | done].
  - rewrite !elem_of_app. right. right. apply elem_of_cons. by left.
  - intros H1 H2 H3 H4. destruct Hfinal as [m Hm]. exists m.
    rewrite Hkeep; try done.
    + intros Hne E. by apply (H2 Hne).
    + intros Hne E. by apply (H4 Hne).
Qed.

(** ** Events of the stages *)

Section StageEvents.
Variable env : Env.
Variable P : event -> Prop.
Hypothesis P_exec : forall c, P (Exec c).
Hypothesis P_unlink : forall p, P (Unlink p).
Hypothesis P_mkdir : forall p, P (Mkdir p).
Hypothesis P_copy : forall a b, P (CopyFile a b).
Hypothesis P_download : forall a b, P (Download a b).
Hypothesis P_timeout : forall ms, P (SetTimeout ms).
Hypothesis P_error : forall e, P (Respond 500 e).

Lemma emits_ensureOutputDir job : emits P (ensureOutputDir env job).
Proof.
  unfold ensureOutputDir. apply emits_bind; [apply emits_existsSync |].
  intros []; [apply emits_ret | by apply emits_mkdirSync].
Qed.

Lemma emits_probe job names : emits P (probe env job names).
Proof.
  induction names as [|name names IH]; simpl; [apply emits_ret |].
  apply emits_bind; [apply emits_existsSync |].
  intros []; [apply emits_ret | done].
Qed.

Lemma emits_stat_all paths : emits P (stat_all env paths).
Proof.
  induction paths as [|p paths IH]; simpl; [apply emits_ret |].
  apply emits_bind; [apply emits_statSync_mtime |]. intros m.
  apply emits_bind; [done |]. intros l. apply emits_ret.
Qed.

Lemma emits_sortByMtime paths : emits P (sortByMtime env paths).
Proof.
  unfold sortByMtime. destruct paths as [|p [|q paths]]; try apply emits_ret.
  apply emits_bind; [apply emits_stat_all |]. intros l. apply emits_ret.
Qed.

Lemma emits_scanOutputDir job : emits P (scanOutputDir env job).
Proof.
  unfold scanOutputDir. apply emits_bind; [apply emits_readdir |]. intros names.
  destruct (List.filter ends_with_pdf names); [apply emits_ret |].
  apply emits_bind; [apply emits_sortByMtime |]. intros sorted. apply emits_ret.
Qed.

Lemma emits_convertStage job file : emits P (convertStage env job file).
Proof.
  unfold convertStage. apply emits_bind; [by apply emits_exec |]. intros r.
  destruct (exec_error r); [apply emits_throw |].
  apply emits_bind; [apply emits_probe |]. intros probed.
  apply emits_bind.
  { destruct (truthy probed); [apply emits_ret |].
    apply emits_bind; [apply emits_scanOutputDir |]. intros s. apply emits_ret. }
  intros [[|c p]|]; try apply emits_throw.
  apply emits_bind; [apply emits_existsSync |].
  intros []; [apply emits_ret | apply emits_throw].
Qed.

Lemma emits_cleanupTemporary job lo : emits P (cleanupTemporary env job lo).
Proof.
  unfold cleanupTemporary.
  repeat first
    [ apply emits_cleanupFile; [done]
    | apply emits_existsSync
    | apply emits_ret
    | apply emits_bind; [| intros ?]
    | match goal with |- emits _ (if ?b then _ else _) => destruct b end ].
Qed.

Lemma emits_deliver job : emits P (deliver env job).
Proof.
  unfold deliver. apply emits_download; [done |].
  intros [e|]; simpl; [apply emits_ret |].
  apply emits_setTimeout; [done |]. by apply emits_cleanupFile.
Qed.

Lemma emits_compressAndDeliver job lo c : emits P (compressAndDeliver env job lo c).
Proof.
  unfold compressAndDeliver.
  apply emits_bind; [by apply emits_compressPdf |]. intros _.
  apply emits_bind; [apply emits_cleanupTemporary |]. intros _.
  apply emits_deliver.
Qed.

Lemma emits_onError job message : emits P (onError env job message).
Proof.
  unfold onError.
  repeat first
    [ apply emits_cleanupFile; [done]
    | apply emits_existsSync
    | apply emits_ret
    | apply emits_respond; [done]
    | apply emits_bind; [| intros ?]
    | match goal with |- emits _ (if ?b then _ else _) => destruct b end ].
Qed.

(** The pipeline, when composition may read and write as well. *)
Lemma emits_pipeline job file K :
  (forall p, P (ReadFile p)) -> (forall p, P (WriteFile p)) ->
  emits P (pipeline env job file K).
Proof.
  intros P_read P_write. unfold pipeline.
  apply emits_bind; [apply emits_convertStage |]. intros lo.
  unfold afterConversion. apply emits_bind; [| intros c; apply emits_compressAndDeliver].
  unfold mergeStage. destruct (1 <? K); [| apply emits_ret].
  apply emits_bind; [by apply emits_mergeSlidesPerPage |]. intros content.
  apply emits_bind; [by apply emits_writeFileSync |]. intros _. apply emits_ret.
Qed.
End StageEvents.

(** The [catch] block unlinks the upload, the intermediate file, the
    optimized file and the final file, and nothing else. *)
Lemma onError_unlinks (env : Env) (job : Job) (message : string) :
  emits (fun e => e ∈ [Unlink (inputPath job); Unlink (tempPdfPath job);
                       Unlink (optimizedPdfPath job); Unlink (finalPdfPath job);
                       Respond 500 (or_text message "Conversion failed.")])
        (onError env job message).
Proof.
  unfold onError.
  repeat first
    [ apply emits_cleanupFile
    | apply emits_existsSync
    | apply emits_ret
    | apply emits_respond
    | apply emits_bind; [| intros ?]
    | match goal with |- emits _ (if ?b then _ else _) => destruct b end ];
    rewrite !elem_of_cons; tauto.
Qed.

(** So a path that is none of these four, such as the output of the
    conversion under the name LibreOffice gives it, is never unlinked
    by the [catch] block. *)
Lemma onError_leaves_other_paths (env : Env) (job : Job) (message : string)
    (w : world) (p : string) :
  p ∉ [inputPath job; tempPdfPath job; optimizedPdfPath job; finalPdfPath job] ->
  Unlink p ∉ events_since w (onError env job message w).2.
Proof.
  intros Hp Hin.
  destruct (onError_unlinks env job message w) as (evs & Ht & Hevs).
  rewrite (events_since_app _ _ _ Ht) in Hin.
  rewrite Forall_forall in Hevs. specialize (Hevs _ Hin).
  apply Hp. rewrite !elem_of_cons in Hevs. rewrite !elem_of_cons.
  destruct Hevs as [E|[E|[E|[E|[E|E]]]]];
    first [ by apply elem_of_nil in E | inversion E; subst; tauto ].
Qed.

(** ** Properties of the route *)

Lemma bind_ext {A B} (c : M A) (k1 k2 : A -> M B) w :
  (forall a w', k1 a w' = k2 a w') -> bind c k1 w = bind c k2 w.
Proof. intros Hk. unfold bind. destruct (c w) as [[a| |] w']; [apply Hk | done | done]. Qed.

Lemma try_catch_ext {A} (c1 c2 : M A) (h : string -> M A) w :
  (forall w', c1 w' = c2 w') -> try_catch c1 h w = try_catch c2 h w.
Proof. intros Hc. unfold try_catch. by rewrite Hc. Qed.

Lemma no_composition_pipeline (env : Env) (job : Job) (file : UploadedFile) :
  emits no_composition
    (ensureOutputDir env job ;;
     try_catch (lo ← convertStage env job file; compressAndDeliver env job lo lo)
               (onError env job))%M.
Proof.
  apply emits_bind; [by apply emits_ensureOutputDir |]. intros _.
  apply emits_try_catch.
  - apply emits_bind; [by apply emits_convertStage |]. intros lo.
    by apply emits_compressAndDeliver.
  - intros e. apply emits_onError; done.
Qed.

Lemma ensureOutputDir_run env job w :
  exists w' evs,
    ensureOutputDir env job w = (Normal tt, w') /\
    trace w' = trace w ++ evs /\ Forall silent evs.
Proof.
  unfold ensureOutputDir. rewrite (bind_run _ _ _ _ _ (existsSync_run env _ w)).
  case_bool_decide as Hdir.
  - exists w, []. split; [done |]. split; [by rewrite app_nil_r | constructor].
  - unfold mkdirSync, bind, get_files; simpl.
    destruct (files w !! key env (outputDir job)) eqn:Hl; [by destruct Hdir |].
    eexists. exists [Mkdir (outputDir job)]. split; [reflexivity |].
    split; [done |]. by repeat constructor.
Qed.

Lemma try_catch_bind_normal {A B} (c : M A) (k : A -> M B) (h : string -> M B) w a w' :
  c w = (Normal a, w') -> try_catch (bind c k) h w = try_catch (k a) h w'.
Proof. intros Hc. unfold try_catch, bind. by rewrite Hc. Qed.

(** [compressPdf] begins with the start of Ghostscript. *)
Lemma compressAndDeliver_starts env job lo pdfToCompress (h : string -> M unit) w :
  exists rest : M unit,
    emits no_composition rest /\
    try_catch (compressAndDeliver env job lo pdfToCompress) h w
    = try_catch rest h
        {| files := (exec_process env (gsCommand (finalPdfPath job) pdfToCompress) (files w)).2;
           clock := clock w;
           trace := trace w ++ [Exec (gsCommand (finalPdfPath job) pdfToCompress)] |}.
Proof.
  set (cmd := gsCommand (finalPdfPath job) pdfToCompress).
  set (r := (exec_process env cmd (files w)).1).
  exists (in_callback
            match exec_error r with
            | Some _ => copyFileSync env pdfToCompress (finalPdfPath job)
            | None => ret tt
            end ;;
          cleanupTemporary env job lo ;;
          deliver env job)%M.
  split.
  - apply emits_bind.
    + apply emits_in_callback.
      destruct (exec_error r); [by apply emits_copyFileSync | apply emits_ret].
    + intros _. apply emits_bind; [by apply emits_cleanupTemporary |].
      intros _. by apply emits_deliver.
  - unfold try_catch, compressAndDeliver, compressPdf, bind, exec. fold cmd.
    subst r. by destruct (exec_process env cmd (files w)).
Qed.

(** C10, at a request without a file: the parameter is absent from the
    body and from the query, and the request is answered 400 before the
    parameter is read; nothing is converted or compressed. *)
Lemma C10_request_without_file_is_rejected :
  let env := demo_env None (inr demo_deck) None in
  body_slidesPerPage request_without_file = None /\
  query_slidesPerPage request_without_file = None /\
  convert env request_without_file demo_world
  = (Normal tt,
     {| files := files demo_world; clock := clock demo_world;
        trace := [Respond 400 "No file uploaded."] |}).
Proof. repeat split. Qed.

(** C10, amended: a request that carries a file and no [slidesPerPage],
    neither in the body nor in the query, is handled with the value 1:
    it passes the validation, the merge stage does nothing and gives
    back the output of LibreOffice, the run reads and writes no
    document and sends no 400, and when the conversion has given its
    output the next thing the server does is to start Ghostscript on
    that output, with the final path as the target. *)
Theorem C10_absent_parameter_means_one (env : Env) (req : Request)
    (file : UploadedFile) (w : world) :
  req_file req = Some file ->
  body_slidesPerPage req = None ->
  query_slidesPerPage req = None ->
  let job := newJob env file in
  let w0 := (ensureOutputDir env job w).2 in
  requestedSlidesPerPage req = Int 1 /\
  includes validSlidesPerPage (requestedSlidesPerPage req) = true /\
  (forall libreOfficeOutput,
     mergeStage env job 1 libreOfficeOutput = ret libreOfficeOutput) /\
  convert env req w
    = (ensureOutputDir env job ;;
       try_catch (lo ← convertStage env job file; compressAndDeliver env job lo lo)
                 (onError env job))%M w /\
  Forall no_composition (events_since w (convert env req w).2) /\
  (forall lo w1,
     convertStage env job file w0 = (Normal lo, w1) ->
     exists rest,
       trace (convert env req w).2
       = trace w1 ++ Exec (gsCommand (finalPdfPath job) lo) :: rest /\
       Forall no_composition rest).
Proof.
  intros Hfile Hbody Hquery job w0.
  assert (requestedSlidesPerPage req = Int 1) as Hone.
  { unfold requestedSlidesPerPage. by rewrite Hbody, Hquery. }
  assert (convert env req w
          = (ensureOutputDir env job ;;
             try_catch (lo ← convertStage env job file; compressAndDeliver env job lo lo)
                       (onError env job))%M w) as Hrun.
  { unfold convert. rewrite Hfile, Hone. simpl. fold job.
    apply bind_ext. intros _ w'. apply try_catch_ext. intros w1.
    unfold pipeline. apply bind_ext. intros lo w2. reflexivity. }
  split; [done |]. split; [by rewrite Hone |]. split; [done |]. split; [done |].
  split.
  - rewrite Hrun.
    destruct (no_composition_pipeline env job file w) as (evs & Ht & Hevs).
    by rewrite (events_since_app _ _ _ Ht).
  - intros lo w1 Hconv. rewrite Hrun.
    destruct (ensureOutputDir_run env job w) as (w0' & evs0 & Hdir & _).
    assert (w0 = w0') as Hw0 by (unfold w0; by rewrite Hdir).
    rewrite Hw0 in Hconv.
    rewrite (bind_run _ _ _ _ _ Hdir).
    rewrite (try_catch_bind_normal _ _ _ _ _ _ Hconv).
    destruct (compressAndDeliver_starts env job lo lo (onError env job) w1)
      as (rest & Hrest & ->).
    assert (emits no_composition (try_catch rest (onError env job))) as Hem.
    { apply emits_try_catch; [done |]. intros e. by apply emits_onError. }
    match goal with |- context [try_catch rest _ ?w2] =>
      destruct (Hem w2) as (evs & Ht & Hevs) end.
    exists evs. split; [| done].
    rewrite Ht. simpl. by rewrite <- app_assoc.
Qed.

(** The theorem at the upload [deck.pptx] sent without the parameter. *)
Lemma C10_witness :
  let env := demo_env None (inr demo_deck) None in
  let job := newJob env demo_file in
  let w0 := (ensureOutputDir env job demo_world).2 in
  requestedSlidesPerPage (demo_request None) = Int 1 /\
  includes validSlidesPerPage (requestedSlidesPerPage (demo_request None)) = true /\
  (forall libreOfficeOutput,
     mergeStage env job 1 libreOfficeOutput = ret libreOfficeOutput) /\
  convert env (demo_request None) demo_world
    = (ensureOutputDir env job ;;
       try_catch (lo ← convertStage env job demo_file; compressAndDeliver env job lo lo)
                 (onError env job))%M demo_world /\
  Forall no_composition
         (events_since demo_world (convert env (demo_request None) demo_world).2) /\
  (forall lo w1,
     convertStage env job demo_file w0 = (Normal lo, w1) ->
     exists rest,
       trace (convert env (demo_request None) demo_world).2
       = trace w1 ++ Exec (gsCommand (finalPdfPath job) lo) :: rest /\
       Forall no_composition rest).
Proof.
  apply (C10_absent_parameter_means_one
           (demo_env None (inr demo_deck) None) (demo_request None) demo_file demo_world);
    reflexivity.
Defined.

(** C4, as the code has it: the value [1.5] is not one of 1, 2, 3, 4,
    6, 9, and neither is [4abc]; [parseInt] reads them as 1 and as 4,
    and the request with [1.5] passes the validation: the upload is
    converted, compressed and delivered. *)
Lemma C4_fractional_value_is_converted :
  let env := demo_env None (inr demo_deck) None in
  let req := demo_request (Some "1.5") in
  body_slidesPerPage req = Some "1.5" /\
  ("1.5" ∉ ["1"; "2"; "3"; "4"; "6"; "9"]) /\
  requestedSlidesPerPage req = Int 1 /\
  requestedSlidesPerPage (demo_request (Some "4abc")) = Int 4 /\
  exists w',
    convert env req demo_world = (Normal tt, w') /\
    trace w'
    = [ Exec (sofficeCommand env (newJob env demo_file));
        Exec (gsCommand "/srv/converted/deck.pdf" "/srv/converted/abc123.pdf");
        Unlink "/srv/uploads/abc123";
        Unlink "/srv/converted/abc123.pdf";
        Download "/srv/converted/deck.pdf" "deck.pdf";
        SetTimeout 1000;
        Unlink "/srv/converted/deck.pdf" ].
Proof.
  split; [reflexivity |]. split.
  { intros Hin. repeat (apply elem_of_cons in Hin as [Hin|Hin]; [discriminate |]).
    by apply elem_of_nil in Hin. }
  split; [reflexivity |]. split; [reflexivity |].
  eexists. split; vm_compute; reflexivity.
Qed.

(** C4, amended: a request that carries a file and whose
    [slidesPerPage], read by [parseInt] from the body, else the query,
    else ['1'], is not one of 1, 2, 3, 4, 6, 9 (or is not a number) gets
    the status 400 with a message that names the valid values; before
    it the upload is unlinked when it is there, and nothing else
    happens: no process is started, nothing is composed or
    compressed. *)
Theorem C4_invalid_value_is_rejected (env : Env) (req : Request)
    (file : UploadedFile) (w : world) :
  req_file req = Some file ->
  includes validSlidesPerPage (requestedSlidesPerPage req) = false ->
  exists w',
    convert env req w = (Normal tt, w') /\
    events_since w w'
    = (if bool_decide (is_Some (files w !! key env (file_path file)))
       then [Unlink (file_path file)] else [])
      ++ [Respond 400 "Invalid slidesPerPage. Must be 1, 2, 3, 4, 6, or 9."].
Proof.
  intros Hfile Hinvalid.
  assert (convert env req w
          = (cleanupFile env (file_path file) ;; respond 400 invalidSlidesPerPage)%M w)
    as ->.
  { unfold convert. rewrite Hfile.
    destruct (requestedSlidesPerPage req) as [|k]; [done |]. by rewrite Hinvalid. }
  rewrite (bind_run _ _ _ _ _ (cleanupFile_run env _ w)).
  eexists. split; [reflexivity |].
  apply events_since_app. simpl. by rewrite after_cleanup_trace, <- app_assoc.
Qed.

(** The theorem at the request with [slidesPerPage=5]. *)
Lemma C4_witness :
  exists w',
    convert (demo_env None (inr demo_deck) None) (demo_request (Some "5")) demo_world
      = (Normal tt, w') /\
    events_since demo_world w'
    = (if bool_decide (is_Some (files demo_world
                                  !! key (demo_env None (inr demo_deck) None)
                                         (file_path demo_file)))
       then [Unlink (file_path demo_file)] else [])
      ++ [Respond 400 "Invalid slidesPerPage. Must be 1, 2, 3, 4, 6, or 9."].
Proof.
  apply (C4_invalid_value_is_rejected
           (demo_env None (inr demo_deck) None) (demo_request (Some "5")) demo_file
           demo_world); reflexivity.
Defined.

(** C5, at a failing input: LibreOffice has written
    [converted/abc123.pdf], the document cannot be loaded, and the
    [catch] block answers 500 after it has unlinked the upload only:
    the output of the conversion is still there and no unlink of it was
    issued. *)
Lemma C5_conversion_output_is_left_behind :
  let env := demo_env None (inl "Failed to parse PDF document") None in
  exists w',
    convert env (demo_request (Some "2")) demo_world = (Normal tt, w') /\
    trace w'
    = [ Exec (sofficeCommand env (newJob env demo_file));
        ReadFile "/srv/converted/abc123.pdf";
        Unlink "/srv/uploads/abc123";
        Respond 500 "Failed to parse PDF document" ] /\
    files w' !! "/srv/converted/abc123.pdf" = Some (File (pdf_bytes Byte.x31) 5).
Proof. eexists. repeat split; vm_compute; reflexivity. Qed.

(** C9, as the code has it: the transfer of the final file fails; the
    run ends after [res.download], no timer is set, no unlink of the
    final file is issued, and the file is still there. *)
Lemma C9_failed_transfer_leaves_the_file :
  let env := demo_env None (inr demo_deck) (Some "write EPIPE") in
  transmit env (files demo_world) "/srv/converted/deck.pdf" = Some "write EPIPE" /\
  exists w',
    convert env (demo_request None) demo_world = (Normal tt, w') /\
    trace w'
    = [ Exec (sofficeCommand env (newJob env demo_file));
        Exec (gsCommand "/srv/converted/deck.pdf" "/srv/converted/abc123.pdf");
        Unlink "/srv/uploads/abc123";
        Unlink "/srv/converted/abc123.pdf";
        Download "/srv/converted/deck.pdf" "deck.pdf" ] /\
    files w' !! "/srv/converted/deck.pdf" = Some (File (pdf_bytes Byte.x33) 8).
Proof. split; [reflexivity |]. eexists. repeat split; vm_compute; reflexivity. Qed.

(** The delivery theorem in a world where the final file is ready. *)
Lemma C9_witness :
  let env := demo_env None (inr demo_deck) None in
  let job := newJob env demo_file in
  let w := delivering_world in
  let inputPath := "uploads/abc123" in
  let outputPath := "/srv/converted/deck.pdf" in
  (exists w',
     deliver env job w = (Normal tt, w') /\
     match transmit env (files w) (finalPdfPath job) with
     | None =>
         events_since w w'
           = [Download (finalPdfPath job) (baseFileName job +:+ ".pdf");
              SetTimeout 1000; Unlink (finalPdfPath job)] /\
         files w' = delete (key env (finalPdfPath job)) (files w) /\
         clock w' = clock w + 1000
     | Some _ =>
         events_since w w' = [Download (finalPdfPath job) (baseFileName job +:+ ".pdf")] /\
         files w' = files w /\
         clock w' = clock w
     end) /\
  (exists w',
     download env outputPath "deck.pdf" (downloadCallback_index env inputPath outputPath) w
       = (Normal tt, w') /\
     match transmit env (files w) outputPath with
     | None =>
         events_since w w'
           = [Download outputPath "deck.pdf"; Unlink inputPath; Unlink outputPath] /\
         files w' = delete (key env outputPath) (delete (key env inputPath) (files w)) /\
         clock w' = clock w
     | Some _ =>
         events_since w w' = [Download outputPath "deck.pdf"] /\
         files w' = files w /\
         clock w' = clock w
     end).
Proof.
  apply (C9_cleanup_follows_a_sent_response
           (demo_env None (inr demo_deck) None)
           (newJob (demo_env None (inr demo_deck) None) demo_file)
           delivering_world (pdf_bytes Byte.x33) 8
           "uploads/abc123" "/srv/converted/deck.pdf" "deck.pdf"
           [Byte.x50; Byte.x4b] (pdf_bytes Byte.x33) 1 8).
  - reflexivity.
  - reflexivity.
  - reflexivity.
  - discriminate.
Defined.

(** The compression theorem where Ghostscript is not installed. *)
Lemma C6_witness :
  let env := demo_env (Some "gs: command not found") (inr demo_deck) None in
  let job := newJob env demo_file in
  let w := converted_world in
  let lo := "/srv/converted/abc123.pdf" in
  (exists w1,
     compressPdf env lo (finalPdfPath job) w = (Normal tt, w1) /\
     events_since w w1 = [Exec (gsCommand (finalPdfPath job) lo);
                          CopyFile lo (finalPdfPath job)] /\
     (exists m, files w1 !! key env (finalPdfPath job) = Some (File (pdf_bytes Byte.x31) m)) /\
     (exists m, files w1 !! key env lo = Some (File (pdf_bytes Byte.x31) m)) /\
     forall q, q ≠ key env (finalPdfPath job) -> files w1 !! q = files w !! q) /\
  (exists wd w2,
     compressAndDeliver env job lo lo w = deliver env job wd /\
     deliver env job wd = (Normal tt, w2) /\
     Forall (fun e => ~ is_response e) (events_since w w2) /\
     Download (finalPdfPath job) (baseFileName job +:+ ".pdf") ∈ events_since w w2 /\
     (key env (inputPath job) ≠ key env (finalPdfPath job) ->
      (lo ≠ finalPdfPath job -> key env lo ≠ key env (finalPdfPath job)) ->
      key env (tempPdfPath job) ≠ key env (finalPdfPath job) ->
      (optimizedPdfPath job ≠ finalPdfPath job ->
       key env (optimizedPdfPath job) ≠ key env (finalPdfPath job)) ->
      exists m, files wd !! key env (finalPdfPath job) = Some (File (pdf_bytes Byte.x31) m))).
Proof.
  apply (C6_compression_failure_is_not_fatal
           (demo_env (Some "gs: command not found") (inr demo_deck) None)
           (newJob (demo_env (Some "gs: command not found") (inr demo_deck) None) demo_file)
           "/srv/converted/abc123.pdf" "/srv/converted/abc123.pdf" converted_world
           {| exec_error := Some "gs: command not found";
              exec_stdout := EmptyString;
              exec_stderr := "gs: command not found" |}
           (files converted_world) (pdf_bytes Byte.x31) 5).
  - reflexivity.
  - eexists. reflexivity.
  - reflexivity.
  - intros m. vm_compute. discriminate.
Defined.

(** C6, as the code has it: Ghostscript is not installed, the input of
    the compression is a file, and the final path is taken by a
    directory.  The copy cannot be made: it throws inside the callback
    of [exec], [compressPdf] is never settled, nothing is at the final
    path but the directory, and the request gets no answer. *)
Lemma C6_failed_copy_is_fatal :
  let env := demo_env (Some "gs: command not found") (inr demo_deck) None in
  let job := newJob env demo_file in
  let lo := "/srv/converted/abc123.pdf" in
  let stopped := {| files := files blocked_world; clock := clock blocked_world;
                    trace := [Exec (gsCommand (finalPdfPath job) lo)] |} in
  files blocked_world !! key env lo = Some (File (pdf_bytes Byte.x31) 5) /\
  exec_error (exec_process env (gsCommand (finalPdfPath job) lo) (files blocked_world)).1
    = Some "gs: command not found" /\
  compressPdf env lo (finalPdfPath job) blocked_world = (Stuck, stopped) /\
  files stopped !! key env (finalPdfPath job) = Some (Dir 3) /\
  try_catch (compressAndDeliver env job lo lo) (onError env job) blocked_world
    = (Stuck, stopped).
Proof. repeat split; vm_compute; reflexivity. Qed.

(** ** One answer for every request *)

Lemma filter_silent (evs : list event) :
  Forall silent evs -> List.filter answer evs = [].
Proof.
  induction 1 as [|e evs He _ IH]; simpl; [done |].
  unfold silent in He. by rewrite He.
Qed.

Lemma answers_as_bind {A B} (c : M A) (k : A -> M B) good :
  emits silent c -> (forall a, answers_as (k a) good) -> answers_as (bind c k) good.
Proof.
  intros Hc Hk w. unfold bind.
  destruct (Hc w) as (evs & Ht & Hevs). apply filter_silent in Hevs.
  destruct (c w) as [[a| |] w1]; simpl in Ht; try by exists evs.
  destruct (Hk a w1) as (evs' & Ht' & Hgood).
  exists (evs ++ evs'). split; [by rewrite Ht', Ht, app_assoc |].
  by rewrite List.filter_app, Hevs.
Qed.

Lemma answers_as_deliver env job :
  answers_as (deliver env job)
             (fun l => l = [Download (finalPdfPath job) (baseFileName job +:+ ".pdf")]).
Proof.
  intros w. rewrite deliver_run. simpl.
  destruct (transmit env (files w) (finalPdfPath job)); simpl.
  - by eexists [_].
  - rewrite after_cleanup_trace. simpl. rewrite <- !app_assoc. simpl.
    eexists. split; [reflexivity |]. simpl. by case_bool_decide.
Qed.

Lemma answers_as_pipeline env job file K :
  answers_as (pipeline env job file K)
             (fun l => l = [Download (finalPdfPath job) (baseFileName job +:+ ".pdf")]).
Proof.
  unfold pipeline, afterConversion, compressAndDeliver.
  apply answers_as_bind; [by apply emits_convertStage |]. intros lo.
  apply answers_as_bind.
  { unfold mergeStage. destruct (1 <? K); [| apply emits_ret].
    apply emits_bind; [by apply emits_mergeSlidesPerPage |]. intros content.
    apply emits_bind; [by apply emits_writeFileSync |]. intros _. apply emits_ret. }
  intros c. apply answers_as_bind; [by apply emits_compressPdf |]. intros _.
  apply answers_as_bind; [by apply emits_cleanupTemporary |]. intros _.
  apply answers_as_deliver.
Qed.

(** The [catch] block ends normally, with the 500 as its last event and
    its only answer. *)
Lemma onError_run env job message w :
  exists w' evs,
    onError env job message w = (Normal tt, w') /\
    trace w' = trace w ++ evs ++ [Respond 500 (or_text message "Conversion failed.")] /\
    Forall (fun e => exists p, e = Unlink p) evs.
Proof.
  unfold onError.
  rewrite (bind_run _ _ _ _ _ (cleanupFile_run env _ w)).
  set (w1 := after_cleanup env (inputPath job) w).
  rewrite (bind_run _ _ _ _ _ (existsSync_run env _ w1)).
  rewrite (bind_run _ _ _ _ _ (maybe_cleanup_run env _ _ w1)).
  set (b1 := bool_decide (is_Some (files w1 !! key env (tempPdfPath job)))).
  set (w2 := if b1 then after_cleanup env (tempPdfPath job) w1 else w1).
  rewrite (bind_run _ _ _ _ _ (existsSync_run env _ w2)).
  rewrite (bind_run _ _ _ _ _ (maybe_cleanup_run env _ _ w2)).
  set (b2 := bool_decide (is_Some (files w2 !! key env (optimizedPdfPath job)))).
  set (w3 := if b2 then after_cleanup env (optimizedPdfPath job) w2 else w2).
  rewrite (bind_run _ _ _ _ _ (existsSync_run env _ w3)).
  rewrite (bind_run _ _ _ _ _ (maybe_cleanup_run env _ _ w3)).
  set (b3 := bool_decide (is_Some (files w3 !! key env (finalPdfPath job)))).
  set (w4 := if b3 then after_cleanup env (finalPdfPath job) w3 else w3).
  assert (exists evs, trace w4 = trace w ++ evs /\
                      Forall (fun e => exists q, e = Unlink q) evs) as (evs & Ht & Hevs).
  { apply (only_unlinks_maybe env b3 (finalPdfPath job) w w3); [| done].
    apply (only_unlinks_maybe env b2 (optimizedPdfPath job) w w2); [| done].
    apply (only_unlinks_maybe env b1 (tempPdfPath job) w w1); [| done].
    apply (only_unlinks_maybe env true (inputPath job) w w); [| done].
    exists []. by rewrite app_nil_r. }
  eexists. exists evs. split; [reflexivity |]. simpl.
  split; [by rewrite Ht, app_assoc | done].
Qed.

Lemma filter_unlinks (evs : list event) :
  Forall (fun e => exists p, e = Unlink p) evs -> List.filter answer evs = [].
Proof.
  intros H. apply filter_silent. eapply Forall_impl; [exact H |].
  by intros e [p ->].
Qed.

Lemma reject_run env p status message w :
  exists w',
    (cleanupFile env p ;; respond status message)%M w = (Normal tt, w') /\
    List.filter answer (events_since w w') = [Respond status message].
Proof.
  rewrite (bind_run _ _ _ _ _ (cleanupFile_run env p w)).
  eexists. split; [reflexivity |].
  erewrite events_since_app
    by (simpl; rewrite after_cleanup_trace, <- app_assoc; reflexivity).
  rewrite List.filter_app. by case_bool_decide.
Qed.

(** Every run of the route answers the caller at most once: a run that
    ends normally has given exactly one answer (the download, or one
    JSON error), and a run that does not end has given none. *)
Theorem convert_answers_once (env : Env) (req : Request) (w : world) :
  match (convert env req w).1 with
  | Normal _ =>
      exists a, List.filter answer (events_since w (convert env req w).2) = [a]
  | Throw _ => True
  | Stuck => List.filter answer (events_since w (convert env req w).2) = []
  end.
Proof.
  unfold convert. destruct (req_file req) as [file|].
  2: { simpl. exists (Respond 400 "No file uploaded.").
       by erewrite events_since_app by reflexivity. }
  assert (forall status message,
            match ((cleanupFile env (file_path file) ;; respond status message)%M w).1 with
            | Normal _ =>
                exists a,
                  List.filter answer
                    (events_since w
                       ((cleanupFile env (file_path file) ;; respond status message)%M w).2)
                  = [a]
            | Throw _ => True
            | Stuck =>
                List.filter answer
                  (events_since w
                     ((cleanupFile env (file_path file) ;; respond status message)%M w).2)
                = []
            end) as Hreject.
  { intros status message.
    destruct (reject_run env (file_path file) status message w) as (w' & -> & Ha).
    simpl. eauto. }
  destruct (requestedSlidesPerPage req) as [|K]; [apply Hreject |].
  destruct (includes validSlidesPerPage (Int K)); [| apply Hreject].
  set (job := newJob env file).
  destruct (ensureOutputDir_run env job w) as (w0 & evs0 & Hdir & Ht0 & Hs0).
  rewrite (bind_run _ _ _ _ _ Hdir). unfold try_catch.
  destruct (answers_as_pipeline env job file K w0) as (evs1 & Ht1 & Hans).
  apply filter_silent in Hs0.
  destruct (pipeline env job file K w0) as [[[]|e|] w1]; simpl in *.
  - exists (Download (finalPdfPath job) (baseFileName job +:+ ".pdf")).
    erewrite events_since_app by (rewrite Ht1, Ht0, <- app_assoc; reflexivity).
    by rewrite List.filter_app, Hs0, Hans.
  - destruct (onError_run env job e w1) as (w2 & evs2 & -> & Ht2 & Hu). simpl.
    exists (Respond 500 (or_text e "Conversion failed.")).
    erewrite events_since_app
      by (rewrite Ht2, Ht1, Ht0, <- !app_assoc; reflexivity).
    rewrite !List.filter_app, Hs0, Hans, (filter_unlinks _ Hu). done.
  - erewrite events_since_app by (rewrite Ht1, Ht0, <- app_assoc; reflexivity).
    by rewrite List.filter_app, Hs0, Hans.
Qed.

(** ** Failures of the routes *)

(** [cleanupFile]: it ends normally whatever it finds, touches no other
    path, leaves no file at its path, does nothing at all when the path
    is absent, and a second call after a removal does nothing. *)
Theorem cleanupFile_is_safe (env : Env) (p : string) (w : world) :
  exists w',
    cleanupFile env p w = (Normal tt, w') /\
    (forall q, q ≠ key env p -> files w' !! q = files w !! q) /\
    (forall c m, files w' !! key env p ≠ Some (File c m)) /\
    (files w !! key env p = None -> w' = w) /\
    (forall c m, files w !! key env p = Some (File c m) ->
                 cleanupFile env p w' = (Normal tt, w')).
Proof.
  exists (after_cleanup env p w). split; [apply cleanupFile_run |].
  split; [intros q Hq; by apply after_cleanup_files |].
  unfold after_cleanup.
  destruct (files w !! key env p) as [[c m|m]|] eqn:Hp; simpl.
  - split; [intros c' m'; by rewrite lookup_delete_eq |]. split; [done |].
    intros _ _ _. rewrite cleanupFile_run. unfold after_cleanup. simpl.
    by rewrite lookup_delete_eq.
  - split; [intros c' m'; by rewrite Hp |]. done.
  - split; [intros c' m'; by rewrite Hp |]. done.
Qed.

(** [compressPdf] never rejects.  When Ghostscript succeeds the server
    writes nothing and does not look at the output; when it fails and
    the copy can be made the output holds the bytes of the input; when
    it fails and the copy cannot be made (the input is no file, or the
    output path is a directory) the promise is never settled. *)
Theorem compressPdf_never_rejects (env : Env) (inputPath outputPath : string) (w : world) :
  let r := (exec_process env (gsCommand outputPath inputPath) (files w)).1 in
  let f1 := (exec_process env (gsCommand outputPath inputPath) (files w)).2 in
  let started := {| files := f1; clock := clock w;
                    trace := trace w ++ [Exec (gsCommand outputPath inputPath)] |} in
  let w' := (compressPdf env inputPath outputPath w).2 in
  match (compressPdf env inputPath outputPath w).1 with
  | Throw _ => False
  | Normal _ =>
      (exec_error r = None /\ w' = started) \/
      (is_Some (exec_error r) /\
       exists content mtime mtime',
         f1 !! key env inputPath = Some (File content mtime) /\
         files w' !! key env outputPath = Some (File content mtime') /\
         trace w' = trace started ++ [CopyFile inputPath outputPath])
  | Stuck =>
      is_Some (exec_error r) /\ w' = started /\
      ((forall content mtime, f1 !! key env inputPath ≠ Some (File content mtime)) \/
       exists mtime, f1 !! key env outputPath = Some (Dir mtime))
  end.
Proof.
  unfold compressPdf, bind, exec.
  destruct (exec_process env (gsCommand outputPath inputPath) (files w)) as [r f1]; simpl.
  destruct (exec_error r) as [e|] eqn:He; [| simpl; by left].
  unfold in_callback, copyFileSync, bind, get_files; simpl.
  destruct (f1 !! key env inputPath) as [[content mtime|mtime]|] eqn:Hin; simpl.
  - destruct (f1 !! key env outputPath) as [[c2 m2|m2]|] eqn:Hout; simpl;
      try (split; [eauto |]; split; [done |]; right; eauto).
    + destruct (decide (key env inputPath = key env outputPath)) as [Heq|Hne]; simpl.
      * right. split; [eauto |]. exists content, mtime, mtime.
        split; [done |]. split; [by rewrite <- Heq |]. done.
      * right. split; [eauto |]. exists content, mtime, (clock w).
        split; [done |]. split; [by rewrite lookup_insert_eq |]. done.
    + destruct (decide (key env inputPath = key env outputPath)) as [Heq|Hne]; simpl.
      * rewrite Heq in Hin. congruence.
      * right. split; [eauto |]. exists content, mtime, (clock w).
        split; [done |]. split; [by rewrite lookup_insert_eq |]. done.
  - split; [eauto |]. split; [done |]. left. congruence.
  - split; [eauto |]. split; [done |]. left. congruence.
Qed.

(** When Ghostscript fails and its input is no file any more, the copy
    throws inside the callback of [exec]: the [catch] block of the
    route does not see it, so nothing is cleaned and no answer is
    sent. *)
Theorem failed_fallback_is_never_answered (env : Env) (job : Job)
    (libreOfficeOutput pdfToCompress : string) (w : world)
    (r : exec_result) (f1 : gmap string node) :
  exec_process env (gsCommand (finalPdfPath job) pdfToCompress) (files w) = (r, f1) ->
  is_Some (exec_error r) ->
  (forall content mtime, f1 !! key env pdfToCompress ≠ Some (File content mtime)) ->
  try_catch (compressAndDeliver env job libreOfficeOutput pdfToCompress)
            (onError env job) w
  = (Stuck, {| files := f1; clock := clock w;
               trace := trace w ++ [Exec (gsCommand (finalPdfPath job) pdfToCompress)] |}).
Proof.
  intros Hexec [e He] Hin.
  unfold try_catch, compressAndDeliver, compressPdf, bind, exec.
  rewrite Hexec, He. simpl.
  unfold in_callback, copyFileSync, bind, get_files; simpl.
  destruct (f1 !! key env pdfToCompress) as [[content mtime|mtime]|] eqn:Hl; simpl;
    [by destruct (Hin content mtime) | done | done].
Qed.

Lemma failed_fallback_witness :
  let env := demo_env (Some "gs: command not found") (inr demo_deck) None in
  let job := newJob env demo_file in
  try_catch (compressAndDeliver env job "/srv/converted/gone.pdf" "/srv/converted/gone.pdf")
            (onError env job) converted_world
  = (Stuck, {| files := files converted_world; clock := clock converted_world;
               trace := trace converted_world
                          ++ [Exec (gsCommand (finalPdfPath job) "/srv/converted/gone.pdf")] |}).
Proof.
  apply (failed_fallback_is_never_answered
           (demo_env (Some "gs: command not found") (inr demo_deck) None)
           (newJob (demo_env (Some "gs: command not found") (inr demo_deck) None) demo_file)
           "/srv/converted/gone.pdf" "/srv/converted/gone.pdf" converted_world
           {| exec_error := Some "gs: command not found";
              exec_stdout := EmptyString;
              exec_stderr := "gs: command not found" |}
           (files converted_world)).
  - reflexivity.
  - eexists. reflexivity.
  - intros content mtime. vm_compute. discriminate.
Defined.

(** ** Finding the output of the conversion *)

Lemma readonly_bind {A B} (c : M A) (k : A -> M B) :
  readonly c -> (forall a, readonly (k a)) -> readonly (bind c k).
Proof.
  intros Hc Hk w. unfold bind. specialize (Hc w).
  destruct (c w) as [[a| |] w1]; simpl in *; subst; try done. apply Hk.
Qed.

Lemma readonly_ret {A} (a : A) : readonly (ret a).
Proof. done. Qed.

Lemma readonly_throw {A} message : readonly (throw (A := A) message).
Proof. done. Qed.

Lemma readonly_existsSync env p : readonly (existsSync env p).
Proof. done. Qed.

Lemma readonly_statSync_mtime env p : readonly (statSync_mtime env p).
Proof.
  intros w. unfold statSync_mtime, bind, get_files. simpl.
  by destruct (files w !! key env p).
Qed.

Lemma readonly_readdir env dir : readonly (readdir env dir).
Proof.
  intros w. unfold readdir, bind, get_files. simpl.
  by destruct (files w !! key env dir) as [[]|].
Qed.

Lemma probe_run env job names w :
  probe env job names w
  = (Normal (path_join env (outputDir job)
               <$> List.find (candidate_exists env job (files w)) names), w).
Proof.
  induction names as [|name names IH]; simpl; [done |].
  rewrite (bind_run _ _ _ _ _ (existsSync_run env _ w)).
  unfold candidate_exists at 1. by case_bool_decide.
Qed.

(** What [stat_all] gives when it ends normally: every path with the
    modification time of what it names. *)
Lemma stat_all_run env paths w l w' :
  stat_all env paths w = (Normal l, w') ->
  w' = w /\
  Forall2 (fun p pm => pm.1 = p /\ exists n, files w !! key env p = Some n /\
                                            pm.2 = node_mtime n) paths l.
Proof.
  revert l w'. induction paths as [|p paths IH]; intros l w' Hrun; simpl in Hrun.
  - inversion Hrun; subst. split; [done | constructor].
  - unfold bind at 1 in Hrun. unfold statSync_mtime, bind, get_files in Hrun.
    simpl in Hrun.
    destruct (files w !! key env p) as [n|] eqn:Hp; simpl in Hrun; [| done].
    destruct (stat_all env paths w) as [[l0| |] w0] eqn:Hrest; simpl in Hrun; try done.
    inversion Hrun; subst. destruct (IH l0 w' eq_refl) as [-> Hl0].
    split; [done |]. constructor; [| done]. simpl. eauto.
Qed.

Lemma readonly_stat_all env paths : readonly (stat_all env paths).
Proof.
  induction paths as [|p paths IH]; simpl; [done |].
  apply readonly_bind; [apply readonly_statSync_mtime |]. intros m.
  apply readonly_bind; [done |]. intros l. done.
Qed.

Lemma readonly_sortByMtime env paths : readonly (sortByMtime env paths).
Proof.
  unfold sortByMtime. destruct paths as [|p [|q paths]]; try done.
  apply readonly_bind; [apply readonly_stat_all | done].
Qed.

Lemma readonly_scanOutputDir env job : readonly (scanOutputDir env job).
Proof.
  unfold scanOutputDir. apply readonly_bind; [apply readonly_readdir |]. intros names.
  destruct (List.filter ends_with_pdf names); [done |].
  apply readonly_bind; [apply readonly_sortByMtime | done].
Qed.

(** The head of the sorted list is one of the entries, and no entry is
    more recent. *)
Lemma sort_recent_head (l : list (string * Z)) (x : string * Z) :
  head (sort_recent l) = Some x -> x ∈ l /\ forall y, y ∈ l -> y.2 <= x.2.
Proof.
  revert x. induction l as [|a l IH]; intros x Hx; [done |].
  unfold sort_recent in *. simpl in Hx.
  destruct (foldr insert_recent [] l) as [|y s] eqn:Hs; simpl in Hx.
  - inversion Hx; subst x. destruct l as [|b l].
    + split; [apply elem_of_cons; by left |].
      intros y Hy. apply elem_of_cons in Hy as [->|Hy]; [lia |]. by apply elem_of_nil in Hy.
    + exfalso. simpl in Hs.
      destruct (foldr insert_recent [] l) as [|z s']; simpl in Hs; [done |].
      by destruct (z.2 <=? b.2).
  - destruct (IH y eq_refl) as [Hy Hmax].
    destruct (y.2 <=? a.2) eqn:Hle; simpl in Hx; inversion Hx; subst x.
    + apply Z.leb_le in Hle. split; [apply elem_of_cons; by left |].
      intros z Hz. apply elem_of_cons in Hz as [->|Hz]; [lia |].
      specialize (Hmax z Hz). lia.
    + apply Z.leb_gt in Hle. split; [apply elem_of_cons; by right |].
      intros z Hz. apply elem_of_cons in Hz as [->|Hz]; [lia |]. by apply Hmax.
Qed.

Lemma ret_run {A} (a : A) w : ret a w = (Normal a, w).
Proof. reflexivity. Qed.

Section Locate.
Variable env : Env.
Variable job : Job.
Variable file : UploadedFile.

(** The world right after LibreOffice has run. *)
Let started (w : world) : world :=
  {| files := (exec_process env (sofficeCommand env job) (files w)).2;
     clock := clock w;
     trace := trace w ++ [Exec (sofficeCommand env job)] |}.

Lemma convertStage_after_exec w :
  convertStage env job file w
  = match exec_error (exec_process env (sofficeCommand env job) (files w)).1 with
    | Some message =>
        (Throw ("LibreOffice conversion failed: "
                  +:+ or_text (exec_stderr (exec_process env (sofficeCommand env job)
                                              (files w)).1) message),
         started w)
    | None =>
        (let names := possibleNames env job file in
         probed ← probe env job names;
         found ← (if truthy probed then ret probed
                  else scanned ← scanOutputDir env job;
                       ret (match scanned with Some p => Some p | None => probed end));
         match found with
         | Some (String c p) =>
             b ← existsSync env (String c p);
             if b then ret (String c p)
             else throw ("Converted PDF not found. Searched for: " +:+ join_comma names)
         | _ => throw ("Converted PDF not found. Searched for: " +:+ join_comma names)
         end)%M (started w)
    end.
Proof.
  unfold convertStage, started, bind at 1, exec.
  destruct (exec_process env (sofficeCommand env job) (files w)) as [r f1]; simpl.
  by destruct (exec_error r).
Qed.

(** When the stage gives a path, LibreOffice has ended without an
    error, the stage itself has changed nothing, and the path is not
    empty and names something that is there. *)
Theorem convertStage_gives_an_existing_path w lo w1 :
  convertStage env job file w = (Normal lo, w1) ->
  exec_error (exec_process env (sofficeCommand env job) (files w)).1 = None /\
  w1 = {| files := (exec_process env (sofficeCommand env job) (files w)).2;
          clock := clock w;
          trace := trace w ++ [Exec (sofficeCommand env job)] |} /\
  lo ≠ EmptyString /\
  is_Some (files w1 !! key env lo).
Proof.
  rewrite convertStage_after_exec. fold (started w).
  destruct (exec_error (exec_process env (sofficeCommand env job) (files w)).1);
    [done |].
  intros Hrun. split; [done |].
  rewrite (bind_run _ _ _ _ _ (probe_run env job _ (started w))) in Hrun.
  set (probed := path_join env (outputDir job)
                   <$> List.find (candidate_exists env job (files (started w)))
                                 (possibleNames env job file)) in Hrun.
  assert (forall found,
            (match found with
             | Some (String c p) =>
                 b ← existsSync env (String c p);
                 if b then ret (String c p)
                 else throw ("Converted PDF not found. Searched for: "
                               +:+ join_comma (possibleNames env job file))
             | _ => throw ("Converted PDF not found. Searched for: "
                             +:+ join_comma (possibleNames env job file))
             end)%M (started w) = (Normal lo, w1) ->
            w1 = started w /\ lo ≠ EmptyString /\ is_Some (files w1 !! key env lo))
    as Hlast.
  { intros [[|c p]|] Hf; try done.
    rewrite (bind_run _ _ _ _ _ (existsSync_run env _ (started w))) in Hf.
    case_bool_decide as Hex; [| done]. inversion Hf; subst. done. }
  destruct (truthy probed).
  - apply Hlast in Hrun. done.
  - unfold bind at 1 2 in Hrun.
    pose proof (readonly_scanOutputDir env job (started w)) as Hro.
    destruct (scanOutputDir env job (started w)) as [[s| |] w2]; simpl in Hro, Hrun;
      subst w2; try done.
    apply Hlast in Hrun. done.
Qed.

(** The candidates are tried in their order: the first one that is
    there after the conversion is the output, whatever else is in the
    directory. *)
Theorem first_candidate_there_is_taken w name :
  exec_error (exec_process env (sofficeCommand env job) (files w)).1 = None ->
  List.find (candidate_exists env job (exec_process env (sofficeCommand env job) (files w)).2)
            (possibleNames env job file) = Some name ->
  path_join env (outputDir job) name ≠ EmptyString ->
  convertStage env job file w
  = (Normal (path_join env (outputDir job) name),
     {| files := (exec_process env (sofficeCommand env job) (files w)).2;
        clock := clock w;
        trace := trace w ++ [Exec (sofficeCommand env job)] |}).
Proof.
  intros Hok Hfind Hne. rewrite convertStage_after_exec, Hok. fold (started w).
  rewrite (bind_run _ _ _ _ _ (probe_run env job _ (started w))).
  change (files (started w))
    with (exec_process env (sofficeCommand env job) (files w)).2.
  rewrite Hfind. simpl.
  destruct (path_join env (outputDir job) name) as [|c p] eqn:Hp; [done |]. simpl.
  rewrite (bind_run _ _ _ _ _ (ret_run _ _)).
  rewrite (bind_run _ _ _ _ _ (existsSync_run env _ (started w))).
  apply find_some in Hfind as [_ Hex]. unfold candidate_exists in Hex.
  rewrite Hp in Hex. simpl. by rewrite Hex.
Qed.

(** The first path after the sort is one of the paths, and none of
    them names something more recent. *)
Lemma sortByMtime_head paths w sorted w' p :
  sortByMtime env paths w = (Normal sorted, w') ->
  head sorted = Some p ->
  In p paths /\
  forall q n n',
    In q paths -> files w !! key env p = Some n -> files w !! key env q = Some n' ->
    node_mtime n' <= node_mtime n.
Proof.
  unfold sortByMtime. destruct paths as [|p1 [|p2 paths]].
  - intros Hrun Hhead. inversion Hrun; subst. done.
  - intros Hrun Hhead. inversion Hrun; subst. inversion Hhead; subst.
    split; [by left |]. intros q n n' [<-|[]] Hn Hn'.
    rewrite Hn in Hn'. inversion Hn'. lia.
  - set (all := p1 :: p2 :: paths). unfold bind.
    destruct (stat_all env all w) as [[l| |] w0] eqn:Hstat; try done.
    destruct (stat_all_run env all w l w0 Hstat) as [-> Hl].
    intros Hrun Hhead. inversion Hrun; subst sorted w'. clear Hrun.
    destruct (sort_recent l) as [|x s] eqn:Hsort; [done |].
    simpl in Hhead. inversion Hhead; subst p. clear Hhead.
    destruct (sort_recent_head l x) as [Hx Hmax]; [by rewrite Hsort |].
    apply list_elem_of_lookup in Hx as [i Hi].
    destruct (Forall2_lookup_r _ _ _ _ _ Hl Hi) as (px & Hpx & Hx1 & nx & Hnx & Hx2).
    subst px. split; [by apply list_elem_of_lookup_2, list_elem_of_In in Hpx |].
    intros q n n' Hq Hn Hn'.
    apply list_elem_of_In, list_elem_of_lookup in Hq as [i' Hi'].
    destruct (Forall2_lookup_l _ _ _ _ _ Hl Hi') as (y & Hy & Hy1 & ny & Hny & Hy2).
    rewrite Hn' in Hny. inversion Hny; subst ny.
    rewrite Hnx in Hn. inversion Hn; subst nx.
    rewrite <- Hy2, <- Hx2. apply Hmax. by apply list_elem_of_lookup_2 in Hy.
Qed.

(** What the scan of the directory gives: one of the listed names that
    end in [.pdf], and none of them is more recent. *)
Lemma scanOutputDir_most_recent w p w' :
  scanOutputDir env job w = (Normal (Some p), w') ->
  exists name,
    In name (readdirSync env (files w) (key env (outputDir job))) /\
    ends_with_pdf name = true /\
    p = path_join env (outputDir job) name /\
    forall name' n n',
      In name' (readdirSync env (files w) (key env (outputDir job))) ->
      ends_with_pdf name' = true ->
      files w !! key env p = Some n ->
      files w !! key env (path_join env (outputDir job) name') = Some n' ->
      node_mtime n' <= node_mtime n.
Proof.
  unfold scanOutputDir, bind at 1, readdir, bind at 1, get_files.
  destruct (files w !! key env (outputDir job)) as [[c m|m]|]; try done.
  unfold ret at 1.
  set (listing := readdirSync env (files w) (key env (outputDir job))).
  assert (forall name, In name (List.filter ends_with_pdf listing) <->
                       In name listing /\ ends_with_pdf name = true) as Hfilter
    by (intros name; apply filter_In).
  destruct (List.filter ends_with_pdf listing) as [|n1 pdfFiles] eqn:Hpdf; [done |].
  set (pdfs := n1 :: pdfFiles) in *. unfold bind.
  destruct (sortByMtime env (map (path_join env (outputDir job)) pdfs) w)
    as [[sorted| |] w0] eqn:Hsort; try done.
  intros Hrun. inversion Hrun as [[Hhead Hw]]. clear Hrun.
  destruct (sortByMtime_head _ _ _ _ _ Hsort Hhead) as [Hp Hmax].
  apply in_map_iff in Hp as (name & Hname & Hin).
  exists name. apply Hfilter in Hin as [Hin Hpdfn].
  split; [done |]. split; [done |]. split; [done |].
  intros name' n n' Hin' Hpdf' Hn Hn'.
  apply (Hmax (path_join env (outputDir job) name')); try done.
  apply in_map. by apply Hfilter.
Qed.

(** When none of the candidates is there, the output is the most
    recently modified of the files of the directory whose name ends in
    [.pdf], in any letter case. *)
Theorem scan_takes_the_most_recent_pdf w lo w1 :
  List.find (candidate_exists env job (exec_process env (sofficeCommand env job) (files w)).2)
            (possibleNames env job file) = None ->
  convertStage env job file w = (Normal lo, w1) ->
  let f1 := (exec_process env (sofficeCommand env job) (files w)).2 in
  exists name,
    In name (readdirSync env f1 (key env (outputDir job))) /\
    ends_with_pdf name = true /\
    lo = path_join env (outputDir job) name /\
    forall name' n n',
      In name' (readdirSync env f1 (key env (outputDir job))) ->
      ends_with_pdf name' = true ->
      f1 !! key env lo = Some n ->
      f1 !! key env (path_join env (outputDir job) name') = Some n' ->
      node_mtime n' <= node_mtime n.
Proof.
  intros Hfind Hrun f1. rewrite convertStage_after_exec in Hrun. fold (started w) in Hrun.
  destruct (exec_error (exec_process env (sofficeCommand env job) (files w)).1);
    [done |].
  rewrite (bind_run _ _ _ _ _ (probe_run env job _ (started w))) in Hrun.
  change (files (started w)) with f1 in Hrun. subst f1. rewrite Hfind in Hrun.
  simpl in Hrun. unfold bind at 1 2 in Hrun.
  destruct (scanOutputDir env job (started w)) as [[[p|]| |] w2] eqn:Hscan;
    simpl in Hrun; try done.
  destruct (scanOutputDir_most_recent _ _ _ Hscan) as (name & Hin & Hpdf & Hp & Hmax).
  assert (lo = p) as ->.
  { destruct p as [|c p']; [done |].
    unfold bind in Hrun. simpl in Hrun.
    by case_bool_decide; inversion Hrun. }
  exists name. done.
Qed.
End Locate.

Lemma convertStage_gives_an_existing_path_witness :
  let env := demo_env None (inr demo_deck) None in
  let job := newJob env demo_file in
  let lo := "/srv/converted/abc123.pdf" in
  let w1 := {| files := (exec_process env (sofficeCommand env job) (files demo_world)).2;
               clock := clock demo_world;
               trace := trace demo_world ++ [Exec (sofficeCommand env job)] |} in
  exec_error (exec_process env (sofficeCommand env job) (files demo_world)).1 = None /\
  w1 = {| files := (exec_process env (sofficeCommand env job) (files demo_world)).2;
          clock := clock demo_world;
          trace := trace demo_world ++ [Exec (sofficeCommand env job)] |} /\
  lo ≠ EmptyString /\
  is_Some (files w1 !! key env lo).
Proof.
  apply (convertStage_gives_an_existing_path
           (demo_env None (inr demo_deck) None)
           (newJob (demo_env None (inr demo_deck) None) demo_file)
           demo_file demo_world).
  vm_compute. reflexivity.
Defined.

Lemma first_candidate_there_is_taken_witness :
  let env := demo_env None (inr demo_deck) None in
  let job := newJob env demo_file in
  convertStage env job demo_file demo_world
  = (Normal (path_join env (outputDir job) "abc123.pdf"),
     {| files := (exec_process env (sofficeCommand env job) (files demo_world)).2;
        clock := clock demo_world;
        trace := trace demo_world ++ [Exec (sofficeCommand env job)] |}).
Proof.
  apply (first_candidate_there_is_taken
           (demo_env None (inr demo_deck) None)
           (newJob (demo_env None (inr demo_deck) None) demo_file)
           demo_file demo_world "abc123.pdf").
  - reflexivity.
  - vm_compute. reflexivity.
  - discriminate.
Defined.

Lemma scan_takes_the_most_recent_pdf_witness :
  let env := renaming_env in
  let job := newJob env demo_file in
  let lo := "/srv/converted/abc123_1.pdf" in
  let f1 := (exec_process env (sofficeCommand env job) (files demo_world)).2 in
  exists name,
    In name (readdirSync env f1 (key env (outputDir job))) /\
    ends_with_pdf name = true /\
    lo = path_join env (outputDir job) name /\
    forall name' n n',
      In name' (readdirSync env f1 (key env (outputDir job))) ->
      ends_with_pdf name' = true ->
      f1 !! key env lo = Some n ->
      f1 !! key env (path_join env (outputDir job) name') = Some n' ->
      node_mtime n' <= node_mtime n.
Proof.
  apply (scan_takes_the_most_recent_pdf
           renaming_env (newJob renaming_env demo_file) demo_file demo_world
           "/srv/converted/abc123_1.pdf"
           {| files := (exec_process renaming_env
                          (sofficeCommand renaming_env (newJob renaming_env demo_file))
                          (files demo_world)).2;
              clock := clock demo_world;
              trace := trace demo_world
                         ++ [Exec (sofficeCommand renaming_env
                                     (newJob renaming_env demo_file))] |}).
  - vm_compute. reflexivity.
  - vm_compute. reflexivity.
Defined.

(** ** What the cleanups leave *)

Section CleanupLeaves.
Variable env : Env.

Lemma after_cleanup_no_file p w : no_file (after_cleanup env p w) (key env p).
Proof.
  intros c m. unfold after_cleanup.
  destruct (files w !! key env p) as [[c' m'|m']|] eqn:Hp; simpl;
    [by rewrite lookup_delete_eq | by rewrite Hp | by rewrite Hp].
Qed.

Lemma after_cleanup_stays_gone p w q : no_file w q -> no_file (after_cleanup env p w) q.
Proof.
  intros Hq c m. unfold after_cleanup.
  destruct (files w !! key env p) as [[c' m'|m']|] eqn:Hp; simpl; try apply Hq.
  destruct (decide (q = key env p)) as [->|Hne];
    [by rewrite lookup_delete_eq | rewrite lookup_delete_ne by done; apply Hq].
Qed.

Lemma maybe_stays_gone (b : bool) p w q :
  no_file w q -> no_file (if b then after_cleanup env p w else w) q.
Proof. destruct b; [apply after_cleanup_stays_gone | done]. Qed.

Lemma guarded_cleanup_no_file (extra : bool) p w :
  extra = true ->
  no_file (if bool_decide (is_Some (files w !! key env p)) && extra
           then after_cleanup env p w else w) (key env p).
Proof.
  intros ->. rewrite andb_true_r. case_bool_decide as Hex; [apply after_cleanup_no_file |].
  intros c m Hf. apply Hex. by rewrite Hf.
Qed.

(** After the cleanup of the success path the upload and the
    intermediate file are gone, and so are the output of the conversion
    and the optimized file unless they are the final file; the cleanup
    ends normally and issues unlinks only. *)
Theorem success_cleanup_removes_the_intermediates (job : Job) (lo : string) (w : world) :
  exists w',
    cleanupTemporary env job lo w = (Normal tt, w') /\
    no_file w' (key env (inputPath job)) /\
    no_file w' (key env (tempPdfPath job)) /\
    (lo ≠ finalPdfPath job -> no_file w' (key env lo)) /\
    (optimizedPdfPath job ≠ finalPdfPath job -> no_file w' (key env (optimizedPdfPath job))) /\
    Forall (fun e => exists p, e = Unlink p) (events_since w w').
Proof.
  destruct (cleanupTemporary_run env job lo w) as (w'' & Hrun'' & (evs & Ht & Hevs) & _).
  unfold cleanupTemporary in *.
  rewrite (bind_run _ _ _ _ _ (cleanupFile_run env _ w)) in *.
  set (w1 := after_cleanup env (inputPath job) w) in *.
  rewrite (bind_run _ _ _ _ _ (existsSync_run env _ w1)) in *.
  rewrite (bind_run _ _ _ _ _ (maybe_cleanup_run env _ _ w1)) in *.
  set (w2 := if bool_decide (is_Some (files w1 !! key env lo))
                && bool_decide (lo ≠ finalPdfPath job)
             then after_cleanup env lo w1 else w1) in *.
  rewrite (bind_run _ _ _ _ _ (existsSync_run env _ w2)) in *.
  rewrite (bind_run _ _ _ _ _ (maybe_cleanup_run env _ _ w2)) in *.
  set (w3 := if bool_decide (is_Some (files w2 !! key env (tempPdfPath job)))
             then after_cleanup env (tempPdfPath job) w2 else w2) in *.
  rewrite (bind_run _ _ _ _ _ (existsSync_run env _ w3)) in *.
  rewrite maybe_cleanup_run in *.
  inversion Hrun''; subst w''. clear Hrun''.
  eexists. split; [reflexivity |].
  assert (no_file w1 (key env (inputPath job))) as H1 by apply after_cleanup_no_file.
  assert (lo ≠ finalPdfPath job -> no_file w2 (key env lo)) as H2.
  { intros Hne. subst w2. apply guarded_cleanup_no_file. by apply bool_decide_eq_true. }
  assert (no_file w3 (key env (tempPdfPath job))) as H3.
  { subst w3. rewrite <- (andb_true_r (bool_decide _)).
    by apply guarded_cleanup_no_file. }
  split; [by do 3 apply maybe_stays_gone |].
  split; [by apply maybe_stays_gone |].
  split; [intros Hne; by do 2 apply maybe_stays_gone; apply H2 |].
  split; [intros Hne; apply guarded_cleanup_no_file; by apply bool_decide_eq_true |].
  by rewrite (events_since_app _ _ _ Ht).
Qed.
End CleanupLeaves.

(** ** A failed conversion *)

Lemma onError_removes env job message w :
  no_file (onError env job message w).2 (key env (inputPath job)).
Proof.
  unfold onError.
  rewrite (bind_run _ _ _ _ _ (cleanupFile_run env _ w)).
  set (w1 := after_cleanup env (inputPath job) w).
  rewrite (bind_run _ _ _ _ _ (existsSync_run env _ w1)).
  rewrite (bind_run _ _ _ _ _ (maybe_cleanup_run env _ _ w1)).
  set (w2 := if bool_decide (is_Some (files w1 !! key env (tempPdfPath job)))
             then after_cleanup env (tempPdfPath job) w1 else w1).
  rewrite (bind_run _ _ _ _ _ (existsSync_run env _ w2)).
  rewrite (bind_run _ _ _ _ _ (maybe_cleanup_run env _ _ w2)).
  set (w3 := if bool_decide (is_Some (files w2 !! key env (optimizedPdfPath job)))
             then after_cleanup env (optimizedPdfPath job) w2 else w2).
  rewrite (bind_run _ _ _ _ _ (existsSync_run env _ w3)).
  rewrite (bind_run _ _ _ _ _ (maybe_cleanup_run env _ _ w3)).
  simpl. do 3 apply maybe_stays_gone. apply after_cleanup_no_file.
Qed.

(** When LibreOffice fails, the route runs no other process and
    composes nothing: it unlinks what it finds of its files and answers
    500 with the error output of LibreOffice (its error message when
    that output is empty); the upload is gone afterwards. *)
Theorem conversion_failure_is_reported (env : Env) (req : Request) (file : UploadedFile)
    (K : Z) (w : world) (message : string) :
  req_file req = Some file ->
  requestedSlidesPerPage req = Int K ->
  includes validSlidesPerPage (Int K) = true ->
  let job := newJob env file in
  let w0 := (ensureOutputDir env job w).2 in
  let r := (exec_process env (sofficeCommand env job) (files w0)).1 in
  exec_error r = Some message ->
  exists w' unlinks,
    convert env req w = (Normal tt, w') /\
    trace w' = trace w0 ++ [Exec (sofficeCommand env job)] ++ unlinks
                 ++ [Respond 500 ("LibreOffice conversion failed: "
                                    +:+ or_text (exec_stderr r) message)] /\
    Forall (fun e => exists p, e = Unlink p) unlinks /\
    no_file w' (key env (inputPath job)).
Proof.
  intros Hfile HK Hvalid job w0 r Herr.
  unfold convert. rewrite Hfile, HK, Hvalid. fold job.
  destruct (ensureOutputDir_run env job w) as (w0' & evs0 & Hdir & _ & _).
  assert (w0' = w0) as -> by (subst w0; by rewrite Hdir).
  rewrite (bind_run _ _ _ _ _ Hdir).
  unfold try_catch, pipeline, bind at 1.
  rewrite convertStage_after_exec. fold r. rewrite Herr.
  set (w1 := {| files := (exec_process env (sofficeCommand env job) (files w0)).2;
                clock := clock w0;
                trace := trace w0 ++ [Exec (sofficeCommand env job)] |}).
  set (msg := "LibreOffice conversion failed: " +:+ or_text (exec_stderr r) message).
  pose proof (onError_removes env job msg w1) as Hgone.
  destruct (onError_run env job msg w1) as (w2 & unlinks & Hrun & Ht & Hu).
  rewrite Hrun in *. exists w2, unlinks.
  split; [done |]. split; [| done].
  rewrite Ht. simpl. by rewrite <- app_assoc.
Qed.

Lemma conversion_failure_is_reported_witness :
  let env := failing_env in
  let job := newJob env demo_file in
  let w0 := (ensureOutputDir env job demo_world).2 in
  let r := (exec_process env (sofficeCommand env job) (files w0)).1 in
  exists w' unlinks,
    convert env (demo_request (Some "4")) demo_world = (Normal tt, w') /\
    trace w' = trace w0 ++ [Exec (sofficeCommand env job)] ++ unlinks
                 ++ [Respond 500 ("LibreOffice conversion failed: "
                                    +:+ or_text (exec_stderr r)
                                          "Command failed: libreoffice")] /\
    Forall (fun e => exists p, e = Unlink p) unlinks /\
    no_file w' (key env (inputPath job)).
Proof.
  apply (conversion_failure_is_reported failing_env (demo_request (Some "4")) demo_file 4
           demo_world "Command failed: libreoffice"); reflexivity.
Defined.

(** ** The merge stage *)

Lemma readFileSync_run env p w content mtime :
  files w !! key env p = Some (File content mtime) ->
  readFileSync env p w
  = (Normal content,
     {| files := files w; clock := clock w; trace := trace w ++ [ReadFile p] |}).
Proof. intros Hp. unfold readFileSync, bind, get_files. simpl. by rewrite Hp. Qed.

Lemma writeFileSync_run env p content w :
  (forall m, files w !! key env p ≠ Some (Dir m)) ->
  writeFileSync env p content w
  = (Normal tt,
     {| files := <[key env p := File content (clock w)]> (files w);
        clock := clock w + 1;
        trace := trace w ++ [WriteFile p] |}).
Proof.
  intros Hp. unfold writeFileSync, bind, get_files. simpl.
  destruct (files w !! key env p) as [[c m|m]|] eqn:Hl; try done.
  by destruct (Hp m).
Qed.

(** With more than one slide per page the stage reads the output of
    the conversion.  When pdf-lib cannot load it, the stage throws the
    error of pdf-lib; when the document has a page, the stage throws
    the error of [drawPage]; in both cases nothing is written and no
    file is changed.  Only for a document without pages is the saved
    document written to the intermediate path. *)
Theorem merge_stage_fails_before_writing (env : Env) (job : Job) (K : Z)
    (lo : string) (w : world) (content : bytes) (mtime : Z) :
  1 < K ->
  files w !! key env lo = Some (File content mtime) ->
  let read := {| files := files w; clock := clock w; trace := trace w ++ [ReadFile lo] |} in
  match PDFDocument_load env content with
  | inl message => mergeStage env job K lo w = (Throw message, read)
  | inr (_ :: _) => mergeStage env job K lo w = (Throw (drawPage_TypeError env), read)
  | inr [] =>
      (forall m, files w !! key env (tempPdfPath job) ≠ Some (Dir m)) ->
      mergeStage env job K lo w
      = (Normal (tempPdfPath job),
         {| files := <[key env (tempPdfPath job) := File (PDFDocument_save env []) (clock w)]>
                       (files w);
            clock := clock w + 1;
            trace := trace w ++ [ReadFile lo; WriteFile (tempPdfPath job)] |})
  end.
Proof.
  intros HK Hlo read.
  assert (forall k : bytes -> M bytes,
            bind (readFileSync env lo) k w = k content read) as Hread.
  { intros k. by rewrite (bind_run _ _ _ _ _ (readFileSync_run env lo w content mtime Hlo)). }
  unfold mergeStage. rewrite (proj2 (Z.ltb_lt 1 K) HK).
  unfold mergeSlidesPerPage.
  destruct (PDFDocument_load env content) as [message|[|sz rest]] eqn:Hload.
  - unfold bind at 1. by rewrite Hread, Hload.
  - intros Htemp. unfold bind at 1. rewrite Hread, Hload.
    change (mergePages (drawPage_TypeError env) [] K) with (Normal (A := list (OutPage float)) []).
    unfold ret at 1.
    rewrite (bind_run _ _ _ _ _ (writeFileSync_run env _ _ read Htemp)).
    unfold ret. simpl. by rewrite <- app_assoc.
  - unfold bind at 1. rewrite Hread, Hload.
    by rewrite (proj1 (mergePages_first_call (drawPage_TypeError env) sz rest K
                         ltac:(lia))).
Qed.

Lemma merge_stage_fails_before_writing_witness :
  let env := demo_env None (inr demo_deck) None in
  let job := newJob env demo_file in
  let lo := "/srv/converted/abc123.pdf" in
  let w := converted_world in
  let read := {| files := files w; clock := clock w; trace := trace w ++ [ReadFile lo] |} in
  mergeStage env job 2 lo w = (Throw (drawPage_TypeError env), read).
Proof.
  apply (merge_stage_fails_before_writing
           (demo_env None (inr demo_deck) None)
           (newJob (demo_env None (inr demo_deck) None) demo_file)
           2 "/srv/converted/abc123.pdf" converted_world (pdf_bytes Byte.x31) 5).
  - lia.
  - reflexivity.
Defined.

(** ** The route of [src/index.js] *)

Section IndexRoute.
Variable env : Env.

Lemma convert_index_after_exec req file w :
  req_file req = Some file ->
  convert_index env req w
  = in_callback
      (match exec_error (exec_process env (indexCommand env file) (files w)).1 with
       | Some _ =>
           cleanupFile env (path_resolve env (file_path file)) ;;
           respond 500
             "Conversion failed. Please ensure LibreOffice is installed and accessible in PATH."
       | None =>
           b ← existsSync env (indexOutputPath env file);
           if b then
             download env (indexOutputPath env file) (replace_pptx (originalname file) ".pdf")
               (downloadCallback_index env (path_resolve env (file_path file))
                  (indexOutputPath env file))
           else
             cleanupFile env (path_resolve env (file_path file)) ;;
             respond 500 "Converted file not found."
       end)%M
      {| files := (exec_process env (indexCommand env file) (files w)).2;
         clock := clock w;
         trace := trace w ++ [Exec (indexCommand env file)] |}.
Proof.
  intros Hfile. unfold convert_index. rewrite Hfile.
  unfold bind at 1, exec. fold (indexCommand env file).
  by destruct (exec_process env (indexCommand env file) (files w)) as [r f1].
Qed.

(** Both failures of the route of [src/index.js], an error of
    LibreOffice and a missing output file, unlink the upload and answer
    500 with the message of that failure; no other process is run. *)
Theorem index_route_failures (req : Request) (file : UploadedFile) (w : world) :
  req_file req = Some file ->
  let inputPath := path_resolve env (file_path file) in
  let r := (exec_process env (indexCommand env file) (files w)).1 in
  let f1 := (exec_process env (indexCommand env file) (files w)).2 in
  is_Some (exec_error r) \/ f1 !! key env (indexOutputPath env file) = None ->
  exists w',
    convert_index env req w = (Normal tt, w') /\
    trace w'
    = trace w ++ [Exec (indexCommand env file)]
        ++ (if bool_decide (is_Some (f1 !! key env inputPath)) then [Unlink inputPath] else [])
        ++ [Respond 500
              match exec_error r with
              | Some _ =>
                  "Conversion failed. Please ensure LibreOffice is installed and accessible in PATH."
              | None => "Converted file not found."
              end] /\
    no_file w' (key env inputPath).
Proof.
  intros Hfile inputPath r f1 Hfail.
  rewrite (convert_index_after_exec req file w Hfile). fold r f1 inputPath.
  set (w1 := {| files := f1; clock := clock w;
                trace := trace w ++ [Exec (indexCommand env file)] |}).
  assert (forall message,
            exists w',
              in_callback (cleanupFile env inputPath ;; respond 500 message)%M w1
                = (Normal tt, w') /\
              trace w' = trace w ++ [Exec (indexCommand env file)]
                ++ (if bool_decide (is_Some (f1 !! key env inputPath))
                    then [Unlink inputPath] else [])
                ++ [Respond 500 message] /\
              no_file w' (key env inputPath)) as Hreject.
  { intros message. unfold in_callback.
    rewrite (bind_run _ _ _ _ _ (cleanupFile_run env inputPath w1)).
    eexists. split; [reflexivity |]. simpl.
    split; [rewrite after_cleanup_trace; simpl; by rewrite <- !app_assoc |].
    apply after_cleanup_no_file. }
  destruct (exec_error r) as [e|] eqn:He; [apply Hreject |].
  destruct Hfail as [[? ?]|Hnone]; [done |].
  unfold in_callback at 1.
  rewrite (bind_run _ _ _ _ _ (existsSync_run env _ w1)).
  simpl. rewrite Hnone.
  rewrite bool_decide_eq_false_2 by (by intros [? ?]).
  apply Hreject.
Qed.

(** Every run of the route of [src/index.js] ends, and has answered
    exactly once. *)
Theorem index_route_answers_once (req : Request) (w : world) :
  exists w' a,
    convert_index env req w = (Normal tt, w') /\
    List.filter answer (events_since w w') = [a].
Proof.
  destruct (req_file req) as [file|] eqn:Hfile.
  2: { unfold convert_index. rewrite Hfile. eexists. eexists.
       split; [reflexivity |]. by erewrite events_since_app by reflexivity. }
  rewrite (convert_index_after_exec req file w Hfile).
  set (f1 := (exec_process env (indexCommand env file) (files w)).2).
  set (w1 := {| files := f1; clock := clock w;
                trace := trace w ++ [Exec (indexCommand env file)] |}).
  assert (forall message,
            exists w' a,
              in_callback (cleanupFile env (path_resolve env (file_path file)) ;;
                           respond 500 message)%M w1 = (Normal tt, w') /\
              List.filter answer (events_since w w') = [a]) as Hreject.
  { intros message. unfold in_callback.
    rewrite (bind_run _ _ _ _ _ (cleanupFile_run env _ w1)).
    eexists. eexists. split; [reflexivity |].
    erewrite events_since_app
      by (simpl; rewrite after_cleanup_trace; unfold w1 at 1; simpl;
          rewrite <- !app_assoc; reflexivity).
    simpl. rewrite List.filter_app. by case_bool_decide. }
  destruct (exec_error _); [apply Hreject |].
  unfold in_callback at 1.
  rewrite (bind_run _ _ _ _ _ (existsSync_run env _ w1)).
  case_bool_decide; [| apply Hreject].
  rewrite download_index_run. eexists. eexists. split; [reflexivity |].
  destruct (transmit env (files w1) (indexOutputPath env file)).
  - by erewrite events_since_app by (simpl; rewrite <- !app_assoc; reflexivity).
  - erewrite events_since_app
      by (rewrite !after_cleanup_trace; simpl; rewrite <- !app_assoc; reflexivity).
    rewrite !List.filter_app. by do 2 case_bool_decide.
Qed.
End IndexRoute.

Lemma index_route_failures_witness :
  let env := demo_env None (inr demo_deck) None in
  let inputPath := path_resolve env (file_path demo_file) in
  let r := (exec_process env (indexCommand env demo_file) (files demo_world)).1 in
  let f1 := (exec_process env (indexCommand env demo_file) (files demo_world)).2 in
  exists w',
    convert_index env (demo_request None) demo_world = (Normal tt, w') /\
    trace w'
    = trace demo_world ++ [Exec (indexCommand env demo_file)]
        ++ (if bool_decide (is_Some (f1 !! key env inputPath)) then [Unlink inputPath] else [])
        ++ [Respond 500
              match exec_error r with
              | Some _ =>
                  "Conversion failed. Please ensure LibreOffice is installed and accessible in PATH."
              | None => "Converted file not found."
              end] /\
    no_file w' (key env inputPath).
Proof.
  apply (index_route_failures (demo_env None (inr demo_deck) None) (demo_request None)
           demo_file demo_world).
  - reflexivity.
  - right. vm_compute. reflexivity.
Defined.
(** ** More on the loops of the composer *)

(** With a step that is not positive the loop over a document that has
    a page never ends, however many rounds it is given: each round adds
    an empty output page and leaves the counter below the number of
    pages. *)
Theorem nonpositive_step_never_ends (type_error : string) (pages : list (Size float))
    (K : Z) :
  K <= 0 -> pages ≠ [] ->
  (forall fuel, mergeLoop type_error fuel pages K 0 = None) /\
  mergePages type_error pages K = Stuck.
Proof.
  intros HK Hpages.
  assert (forall fuel, mergeLoop type_error fuel pages K 0 = None) as Hloop.
  { intros fuel. apply mergeLoop_diverges; [done |]. destruct pages; [done | simpl; lia]. }
  split; [done |]. unfold mergePages. by rewrite Hloop.
Qed.

Lemma nonpositive_step_never_ends_witness :
  (forall fuel, mergeLoop demo_type_error fuel demo_deck 0 0 = None) /\
  mergePages demo_type_error demo_deck 0 = Stuck.
Proof.
  apply (nonpositive_step_never_ends demo_type_error demo_deck 0); [lia | discriminate].
Defined.

(** ** A request for a composition *)

Lemma mergeStage_drawPage_throws env job K lo w content mtime sz rest :
  1 < K ->
  files w !! key env lo = Some (File content mtime) ->
  PDFDocument_load env content = inr (sz :: rest) ->
  mergeStage env job K lo w
  = (Throw (drawPage_TypeError env),
     {| files := files w; clock := clock w; trace := trace w ++ [ReadFile lo] |}).
Proof.
  intros HK Hlo Hload.
  unfold mergeStage. rewrite (proj2 (Z.ltb_lt 1 K) HK).
  unfold mergeSlidesPerPage, bind at 1.
  rewrite (bind_run _ _ _ _ _ (readFileSync_run env lo w content mtime Hlo)), Hload.
  by rewrite (proj1 (mergePages_first_call (drawPage_TypeError env) sz rest K
                       ltac:(lia))).
Qed.

(** When the conversion has given a document that pdf-lib loads with
    at least one page, a request for 2, 3, 4, 6 or 9 slides per page is
    answered 500 with the error of [drawPage]: after the read of the
    document the route only unlinks; Ghostscript is not run, nothing is
    written and nothing is sent for download. *)
Theorem composition_request_is_answered_500 (env : Env) (req : Request)
    (file : UploadedFile) (K : Z) (w : world) (lo : string) (w1 : world)
    (content : bytes) (mtime : Z) (sz : Size float) (rest : list (Size float)) :
  req_file req = Some file ->
  requestedSlidesPerPage req = Int K ->
  K ∈ supported ->
  let job := newJob env file in
  let w0 := (ensureOutputDir env job w).2 in
  convertStage env job file w0 = (Normal lo, w1) ->
  files w1 !! key env lo = Some (File content mtime) ->
  PDFDocument_load env content = inr (sz :: rest) ->
  exists w' unlinks,
    convert env req w = (Normal tt, w') /\
    trace w' = trace w1 ++ [ReadFile lo] ++ unlinks
                 ++ [Respond 500 (or_text (drawPage_TypeError env) "Conversion failed.")] /\
    Forall (fun e => exists p, e = Unlink p) unlinks.
Proof.
  intros Hfile HK Hsup job w0 Hconv Hlo Hload.
  assert (1 < K) as HK1.
  { destruct (supported_cases K Hsup) as [->|[->|[->|[->| ->]]]]; lia. }
  assert (includes validSlidesPerPage (Int K) = true) as Hvalid.
  { destruct (supported_cases K Hsup) as [->|[->|[->|[->| ->]]]]; reflexivity. }
  unfold convert. rewrite Hfile, HK, Hvalid. fold job.
  destruct (ensureOutputDir_run env job w) as (w0' & evs0 & Hdir & _ & _).
  assert (w0' = w0) as -> by (subst w0; by rewrite Hdir).
  rewrite (bind_run _ _ _ _ _ Hdir).
  unfold try_catch, pipeline, bind at 1. rewrite Hconv.
  unfold afterConversion, bind at 1.
  rewrite (mergeStage_drawPage_throws env job K lo w1 content mtime sz rest HK1 Hlo Hload).
  set (w2 := {| files := files w1; clock := clock w1; trace := trace w1 ++ [ReadFile lo] |}).
  destruct (onError_run env job (drawPage_TypeError env) w2) as (w3 & unlinks & Hrun & Ht & Hu).
  rewrite Hrun. exists w3, unlinks.
  split; [done |]. split; [| done].
  rewrite Ht. simpl. by rewrite <- app_assoc.
Qed.

Lemma composition_request_is_answered_500_witness :
  let env := demo_env None (inr demo_deck) None in
  exists w' unlinks,
    convert env (demo_request (Some "2")) demo_world = (Normal tt, w') /\
    trace w' = [Exec (sofficeCommand env (newJob env demo_file))]
                 ++ [ReadFile "/srv/converted/abc123.pdf"] ++ unlinks
                 ++ [Respond 500 (or_text (drawPage_TypeError env) "Conversion failed.")] /\
    Forall (fun e => exists p, e = Unlink p) unlinks.
Proof.
  apply (composition_request_is_answered_500
           (demo_env None (inr demo_deck) None) (demo_request (Some "2")) demo_file 2
           demo_world "/srv/converted/abc123.pdf"
           {| files := <["/srv/converted/abc123.pdf" := File (pdf_bytes Byte.x31) 5]>
                         (files demo_world);
              clock := clock demo_world;
              trace := [Exec (sofficeCommand (demo_env None (inr demo_deck) None)
                                (newJob (demo_env None (inr demo_deck) None) demo_file))] |}
           (pdf_bytes Byte.x31) 5 slide_4_3 [slide_4_3; slide_4_3]).
  - reflexivity.
  - reflexivity.
  - apply (list_elem_of_lookup_2 supported 0%nat). reflexivity.
  - vm_compute. reflexivity.
  - vm_compute. reflexivity.
  - reflexivity.
Defined.

(** ** The names of a job's files *)

Lemma equal_ignoring_case_length s t :
  equal_ignoring_case s t = true -> String.length s = String.length t.
Proof.
  revert t. induction s as [|a s IH]; intros [|b t]; simpl; try done.
  intros [_ H]%andb_true_iff. by rewrite (IH t H).
Qed.

Lemma length_append (s t : string) :
  String.length (s +:+ t) = (String.length s + String.length t)%nat.
Proof. induction s as [|c s IH]; simpl; [done | by rewrite IH]. Qed.

Lemma append_empty (s : string) : s +:+ EmptyString = s.
Proof.
  induction s as [|c s IH]; [done |].
  change (String c (s +:+ EmptyString) = String c s). by rewrite IH.
Qed.

Lemma replace_pptx_suffix stem ext r :
  equal_ignoring_case ext ".pptx" = true -> replace_pptx (stem +:+ ext) r = stem +:+ r.
Proof.
  intros Hext. pose proof (equal_ignoring_case_length _ _ Hext) as Hlen.
  induction stem as [|c stem IH].
  - destruct ext; simpl in *; by rewrite ?Hext.
  - change (String c stem +:+ ext) with (String c (stem +:+ ext)).
    cbn [replace_pptx].
    destruct (equal_ignoring_case (String c (stem +:+ ext)) ".pptx") eqn:E.
    + apply equal_ignoring_case_length in E. simpl in E, Hlen.
      rewrite length_append in E. lia.
    + destruct stem; by rewrite IH.
Qed.

Lemma replace_pptx_other name r :
  (forall stem ext, name = stem +:+ ext -> equal_ignoring_case ext ".pptx" = false) ->
  replace_pptx name r = name.
Proof.
  induction name as [|c name IH]; intros H.
  - done.
  - cbn [replace_pptx]. rewrite (H EmptyString (String c name) eq_refl).
    f_equal. destruct name; [done |]. apply IH.
    intros stem ext E. apply (H (String c stem) ext). by rewrite E.
Qed.

(** An upload whose name ends in [.pptx], in any letter case, gives a
    job whose base name is the name without that ending; the three
    output files are named after it, and the first and the third name
    looked for after the conversion are the same. *)
Theorem pptx_ending_is_dropped (env : Env) (file : UploadedFile) (stem ext : string) :
  originalname file = stem +:+ ext ->
  equal_ignoring_case ext ".pptx" = true ->
  let job := newJob env file in
  let dir := path_resolve env "converted" in
  baseFileName job = stem /\
  tempPdfPath job = path_join env dir (stem +:+ "_temp.pdf") /\
  optimizedPdfPath job = path_join env dir (stem +:+ "_optimized.pdf") /\
  finalPdfPath job = path_join env dir (stem +:+ ".pdf") /\
  possibleNames env job file
    = [ stem +:+ ".pdf";
        path_basename env (inputPath job) (path_extname env (inputPath job)) +:+ ".pdf";
        stem +:+ ".pdf" ].
Proof.
  intros Hname Hext job dir.
  assert (baseFileName job = stem) as Hbase.
  { unfold job, newJob. simpl.
    rewrite Hname, replace_pptx_suffix by done. apply append_empty. }
  unfold possibleNames. rewrite Hbase.
  unfold job, newJob in *. simpl in *. rewrite Hbase.
  rewrite Hname, replace_pptx_suffix by done. done.
Qed.

Lemma pptx_ending_is_dropped_witness :
  let file := PPTX_file in
  let env := demo_env None (inr []) None in
  let job := newJob env file in
  let dir := path_resolve env "converted" in
  baseFileName job = "Deck" /\
  tempPdfPath job = path_join env dir ("Deck" +:+ "_temp.pdf") /\
  optimizedPdfPath job = path_join env dir ("Deck" +:+ "_optimized.pdf") /\
  finalPdfPath job = path_join env dir ("Deck" +:+ ".pdf") /\
  possibleNames env job file
    = [ "Deck" +:+ ".pdf";
        path_basename env (inputPath job) (path_extname env (inputPath job)) +:+ ".pdf";
        "Deck" +:+ ".pdf" ].
Proof.
  apply (pptx_ending_is_dropped (demo_env None (inr []) None) PPTX_file "Deck" ".PPTX").
  - reflexivity.
  - reflexivity.
Defined.

(** An upload whose name does not end in [.pptx] keeps its whole name as
    the base name: the final file is the name followed by [.pdf], and the
    third name looked for after the conversion is the upload's own name. *)
Theorem other_ending_is_kept (env : Env) (file : UploadedFile) :
  (forall stem ext, originalname file = stem +:+ ext ->
                    equal_ignoring_case ext ".pptx" = false) ->
  let job := newJob env file in
  let dir := path_resolve env "converted" in
  baseFileName job = originalname file /\
  finalPdfPath job = path_join env dir (originalname file +:+ ".pdf") /\
  possibleNames env job file
    = [ originalname file +:+ ".pdf";
        path_basename env (inputPath job) (path_extname env (inputPath job)) +:+ ".pdf";
        originalname file ].
Proof.
  intros Hname job dir.
  assert (baseFileName job = originalname file) as Hbase.
  { unfold job, newJob. simpl. by apply replace_pptx_other. }
  unfold possibleNames. rewrite Hbase.
  unfold job, newJob in *. simpl in *. rewrite Hbase.
  by rewrite replace_pptx_other.
Qed.

Lemma other_ending_is_kept_witness :
  let env := demo_env None (inr []) None in
  let job := newJob env ppt_file in
  let dir := path_resolve env "converted" in
  baseFileName job = originalname ppt_file /\
  finalPdfPath job = path_join env dir (originalname ppt_file +:+ ".pdf") /\
  possibleNames env job ppt_file
    = [ originalname ppt_file +:+ ".pdf";
        path_basename env (inputPath job) (path_extname env (inputPath job)) +:+ ".pdf";
        originalname ppt_file ].
Proof.
  apply (other_ending_is_kept (demo_env None (inr []) None) ppt_file).
  intros stem ext E.
  do 8 (destruct stem as [|? stem];
        [vm_compute in E; subst ext; reflexivity | vm_compute in E; injection E as _ E]).
  destruct stem; vm_compute in E; [subst ext; reflexivity | discriminate].
Defined.

(** ** Reading the parameter *)

Lemma trim_start_white ws rest :
  all_white ws = true -> trim_start (ws +:+ rest) = trim_start rest.
Proof.
  induction ws as [|c ws IH]; [done |].
  intros [Hc Hws]%andb_true_iff.
  change (String c ws +:+ rest) with (String c (ws +:+ rest)).
  cbn [trim_start]. rewrite Hc. by apply IH.
Qed.

Lemma decimal_digit_shape c d :
  digit_value c = Some d -> 1 <= d <= 9 ->
  is_white_space c = false /\ c <> "-"%char /\ c <> "+"%char /\ c <> "0"%char.
Proof.
  intros Hd Hr.
  destruct c as [[] [] [] [] [] [] [] []]; vm_compute in Hd;
    try discriminate; injection Hd as <-; try lia;
    (split; [reflexivity |]); repeat split; discriminate.
Qed.

Lemma parse_digits_first c d tail :
  digit_value c = Some d -> d < 10 -> starts_with_decimal tail = false ->
  parse_digits 10 (String c tail) None = Some d.
Proof.
  intros Hd Hlt Htail. cbn [parse_digits]. rewrite Hd.
  destruct (d <? 10) eqn:E; [| apply Z.ltb_ge in E; lia].
  replace (10 * default 0 None + d) with d by (simpl; lia).
  destruct tail as [|c' tail']; [done |].
  cbn [parse_digits]. unfold starts_with_decimal in Htail. unfold digit_value.
  set (n := Z.of_nat (nat_of_ascii c')) in *. cbv zeta in Htail. rewrite Htail.
  destruct ((97 <=? n) && (n <=? 122)) eqn:E1.
  { apply andb_true_iff in E1 as [E1 _]. apply Z.leb_le in E1.
    destruct (n - 87 <? 10) eqn:E2; [apply Z.ltb_lt in E2; lia | done]. }
  destruct ((65 <=? n) && (n <=? 90)) eqn:E3; [| done].
  apply andb_true_iff in E3 as [E3 _]. apply Z.leb_le in E3.
  destruct (n - 55 <? 10) eqn:E2; [apply Z.ltb_lt in E2; lia | done].
Qed.

(** A parameter in the body that is white space, then one digit from 1
    to 9, then anything that does not begin with a decimal digit is read
    as that digit, whatever the query says; the request is validated on
    the digit alone. *)
Theorem leading_digit_is_the_value (req : Request) (ws tail : string) (c : ascii) (d : Z) :
  body_slidesPerPage req = Some (ws +:+ String c tail) ->
  all_white ws = true ->
  digit_value c = Some d -> 1 <= d <= 9 ->
  starts_with_decimal tail = false ->
  requestedSlidesPerPage req = Int d /\
  includes validSlidesPerPage (requestedSlidesPerPage req)
    = bool_decide (d ∈ validSlidesPerPage).
Proof.
  intros Hbody Hws Hd Hr Htail.
  destruct (decimal_digit_shape c d Hd Hr) as (Hw & Hm & Hp & Hz).
  assert (requestedSlidesPerPage req = Int d) as ->; [| done].
  unfold requestedSlidesPerPage. rewrite Hbody.
  assert (js_or (js_or (Some (ws +:+ String c tail)) (query_slidesPerPage req)) (Some "1")
          = Some (ws +:+ String c tail)) as ->.
  { destruct ws; reflexivity. }
  unfold parseInt. rewrite trim_start_white by done.
  cbn [trim_start]. rewrite Hw.
  assert (parse_digits 10 (String c tail) None = Some d) as Hparse
    by (apply parse_digits_first; [done | lia | done]).
  destruct c as [[] [] [] [] [] [] [] []]; try done;
    rewrite Hparse; f_equal; lia.
Qed.

Lemma leading_digit_is_the_value_witness :
  requestedSlidesPerPage (body_request "  4 per page" (Some "9")) = Int 4 /\
  includes validSlidesPerPage (requestedSlidesPerPage (body_request "  4 per page" (Some "9")))
    = bool_decide (4 ∈ validSlidesPerPage).
Proof.
  apply (leading_digit_is_the_value (body_request "  4 per page" (Some "9"))
           "  " " per page" "4"%char 4).
  - reflexivity.
  - reflexivity.
  - reflexivity.
  - lia.
  - reflexivity.
Defined.

(** ** The command of LibreOffice *)

Lemma trim_first_not_white s c rest :
  trim s = String c rest -> is_white_space c = false.
Proof.
  unfold trim. assert (forall t, t = trim_start s ->
    match t with String a _ => is_white_space a = false | EmptyString => True end) as Hstart.
  { intros t ->. induction s as [|a s IH]; [done |]. simpl.
    destruct (is_white_space a) eqn:Ha; [done | by simpl]. }
  specialize (Hstart _ eq_refl). destruct (trim_start s) as [|a t]; [done |].
  cbn [trim_end]. rewrite Hstart.
  destruct (trim_end t); by intros [= <- _].
Qed.

(** The command the server runs LibreOffice with is never empty: it is
    a macOS path that exists (on darwin only), or the output of [which]
    without the white space around it, which then begins with a character
    that is not white space, or the word [libreoffice]. *)
Theorem libreoffice_command_is_never_empty (platform : string)
    (exists_ : string -> bool) (which : option string) :
  let cmd := getLibreOfficeCommand platform exists_ which in
  cmd <> EmptyString /\
  ((platform = "darwin" /\ cmd ∈ macPaths /\ exists_ cmd = true) \/
   (exists output c rest, which = Some output /\ cmd = trim output /\
                          cmd = String c rest /\ is_white_space c = false) \/
   cmd = "libreoffice").
Proof.
  intros cmd. unfold cmd, getLibreOfficeCommand.
  destruct (String.eqb platform "darwin") eqn:Hp.
  - apply String.eqb_eq in Hp.
    destruct (find exists_ macPaths) as [macPath|] eqn:Hfind.
    + apply find_some in Hfind as [Hin Hex].
      split; [| left; by rewrite <- list_elem_of_In in Hin].
      unfold macPaths in Hin. simpl in Hin.
      destruct Hin as [<- | [<- | [<- | []]]]; done.
    + destruct which as [output|]; [| split; [done | by right; right]].
      destruct (trim output) as [|c rest] eqn:E; [split; [done | by right; right] |].
      split; [done |]. right; left. exists output, c, rest.
      rewrite E. repeat split; try done. by eapply trim_first_not_white.
  - destruct which as [output|]; [| split; [done | by right; right]].
    destruct (trim output) as [|c rest] eqn:E; [split; [done | by right; right] |].
    split; [done |]. right; left. exists output, c, rest.
    rewrite E. repeat split; try done. by eapply trim_first_not_white.
Qed.
